(** * Sync Settings: the extension entry point ([src/extension.ts])

    A shallow embedding of [activate] and of the closures it hands to the
    editor host, together with the properties the specification states
    about them.

    The editor host (command registry, global state, configuration, file
    watchers, timers) is external to the repository; it is represented by
    an explicit [State] that the embedded code threads through a small
    state/exception/trace monad. *)

From Stdlib Require Import Ascii String.
From stdpp Require Import base decidable option list strings gmap sorting.

Local Open Scope string_scope.
Local Open Scope list_scope.
Local Open Scope nat_scope.

(** ** JavaScript values used by the version check *)

Module JS.

(** [String.prototype.split] with a one-character separator: the array
    it returns always has at least one element. *)
Fixpoint split (sep : ascii) (s : string) : list string :=
  match s with
  | EmptyString => [EmptyString]
  | String c s' =>
      if Ascii.eqb c sep then EmptyString :: split sep s'
      else match split sep s' with
           | hd :: tl => String c hd :: tl
           | [] => [String c EmptyString]
           end
  end.

(** [a[i]] on an array: [None] stands for [undefined]. *)
Definition index (a : list string) (i : nat) : option string := a !! i.

(** [x > y] on operands that are strings or [undefined].  Two strings
    are compared code unit by code unit (lexicographically); when an
    operand is [undefined] both are converted to numbers, [undefined]
    becomes NaN and the comparison is false. *)
Definition gt (x y : option string) : bool :=
  match x, y with
  | Some a, Some b => String.ltb b a
  | _, _ => false
  end.

(** [x === y] on operands that are strings or [undefined]. *)
Definition strict_eq (x y : option string) : bool := bool_decide (x = y).

End JS.

(** Reading a dotted component as a decimal number, the way a person
    reads a version; used only to state what "increased" means. *)
Module Numeric.

Definition digit (c : ascii) : option nat :=
  let n := nat_of_ascii c in
  if ((48 <=? n) && (n <=? 57))%nat then Some (n - 48)%nat else None.

Fixpoint decimal_from (acc : nat) (s : string) : option nat :=
  match s with
  | EmptyString => Some acc
  | String c s' =>
      match digit c with
      | Some d => decimal_from (10 * acc + d)%nat s'
      | None => None
      end
  end.

Definition decimal (s : string) : option nat :=
  match s with
  | EmptyString => None
  | _ => decimal_from 0 s
  end.

(** The component at position [i] of a dotted version. *)
Definition component (i : nat) (version : string) : option nat :=
  JS.index (JS.split "." version) i ≫= decimal.

Definition increased (i : nat) (previous current : string) : bool :=
  match component i previous, component i current with
  | Some p, Some c => (p <? c)%nat
  | _, _ => false
  end.

Definition same (i : nat) (previous current : string) : bool :=
  match component i previous, component i current with
  | Some p, Some c => (p =? c)%nat
  | _, _ => false
  end.

End Numeric.

(** ** Data of the extension *)

(** The command handlers imported from [./commands/*.js] (lines 3-15). *)
Inductive Handler : Set :=
  | createProfile | deleteProfile | download | listMissingExtensions
  | openProfileDirectory | openProfileSettings | openRepositoryDirectory
  | openSettings | reset | review | switchProfile | upload | viewDifferences.

#[global] Instance Handler_eq_dec : EqDecision Handler.
Proof. solve_decision. Defined.

(** The identifier each handler is imported under. *)
Definition handler_name (h : Handler) : string :=
  match h with
  | createProfile => "createProfile"
  | deleteProfile => "deleteProfile"
  | download => "download"
  | listMissingExtensions => "listMissingExtensions"
  | openProfileDirectory => "openProfileDirectory"
  | openProfileSettings => "openProfileSettings"
  | openRepositoryDirectory => "openRepositoryDirectory"
  | openSettings => "openSettings"
  | reset => "reset"
  | review => "review"
  | switchProfile => "switchProfile"
  | upload => "upload"
  | viewDifferences => "viewDifferences"
  end.

Definition VERSION_KEY : string := "version".

(** [type CommandItem] (lines 25-30); the optional fields are options. *)
Record CommandItem : Set := {
  label : string;
  command : string;
  description : option string;
  icon : option string;
}.

Inductive Error : Set :=
  | NotLoadedError
  | CommandAlreadyExists (id : string)
  | Failure (message : string).

#[global] Instance Error_eq_dec : EqDecision Error.
Proof. solve_decision. Defined.

(** What a call completes with: a value, or a thrown error (a rejected
    promise once awaited). *)
Inductive Completion (A : Type) : Type :=
  | Return (a : A)
  | Throw (e : Error).
Arguments Return {A} a.
Arguments Throw {A} e.

(** The configuration object [Settings.get()] returns; [activate] reads
    only [settingsUri]. *)
Record SettingsData : Set := { settingsUri : string }.

Inductive Disposable : Set :=
  | CommandRegistration (id : string)
  | TreeDataProviderRegistration (viewId : string).

(** The closures [activate] hands to the host. *)
Inductive Task : Set := ReloadTask.                  (* lines 173-180 *)
Inductive ChangeListener : Set := OnSettingsChange.  (* lines 172-181 *)
Inductive ConfigurationListener : Set := OnConfigurationChange. (* 185-189 *)

(** [vscode.ConfigurationChangeEvent]. *)
Record ConfigurationChangeEvent : Type := {
  affectsConfiguration : string → bool;
}.

(** ** A delayer with an explicit timer *)

Module Delayer.

(** Modelled from the spec: [ThrottledDelayer] of [./utils/async.js],
    which is not among the sources.  Sections 5 and 9 describe it as a
    debounce delay with an explicit timer and a pending trigger: a
    trigger replaces the pending task and re-arms the timer one delay
    from now; the pending task runs once, when the timer expires. *)
Record t (T : Type) : Type := {
  defaultDelay : nat;
  pending : option T;
  timeout : option nat;  (* the instant the armed timer expires at *)
}.
Arguments defaultDelay {T} _.
Arguments pending {T} _.
Arguments timeout {T} _.

Definition create {T} (delay : nat) : t T :=
  {| defaultDelay := delay; pending := None; timeout := None |}.

Definition trigger {T} (task : T) (now : nat) (d : t T) : t T :=
  {| defaultDelay := defaultDelay d;
     pending := Some task;
     timeout := Some (now + defaultDelay d) |}.

(** The timer has expired at instant [now]. *)
Definition due {T} (now : nat) (d : t T) : bool :=
  match timeout d with
  | Some deadline => (deadline <=? now)%nat
  | None => false
  end.

(** The timer callback: hands out the pending task and goes idle. *)
Definition fire {T} (d : t T) : option T * t T :=
  (pending d, {| defaultDelay := defaultDelay d; pending := None; timeout := None |}).

End Delayer.

(** ** State, effects and the monad the embedded code runs in *)

(** What the code does to the outside, in the order it does it. *)
Inductive Event : Type :=
  | EvSetKeysForSync (keys : list string)
  | EvShowInformationMessage (message : string) (actions : list string)
  | EvSettingsLoad (completed : bool)
  | EvSettingsGet (loaded : bool)
  | EvRegisterCommand (id : string) (h : Handler)
  | EvRegisterTreeDataProvider (viewId : string) (items : list CommandItem)
  | EvCreateFileSystemWatcher (base pattern : string)
  | EvExecuteCommand (id arg : string)
  | EvSetupCrons
  | EvReload
  | EvLoggerError (e : Error)
  | EvShowErrorMessage (e : Error)
  | EvUnhandledRejection (e : Error).

(** The package manifest and the collaborators whose modules are not
    among the sources: what their calls complete with. *)
Record Env : Type := {
  pkg_version : string;
  pkg_homepage : string;
  configuration : gmap string string;
  Settings_load_result : Completion SettingsData;
  setupCrons_result : nat → option Error;   (* by number of earlier calls *)
  reload_result : nat → option Error;       (* by number of earlier calls *)
}.

Record State : Type := {
  globalState : gmap string string;
  commands : gmap string Handler;
  changeListeners : list ChangeListener;
  configurationListeners : list ConfigurationListener;
  subscriptions : list Disposable;
  settings : option SettingsData;          (* the Settings singleton *)
  fileChangesDelayer : option (Delayer.t Task);
  cronCalls : nat;
  reloadCalls : nat;
  clock : nat;                              (* milliseconds *)
}.

Definition with_globalState (f : gmap string string → gmap string string) (s : State) : State :=
  {| globalState := f (globalState s); commands := commands s;
     changeListeners := changeListeners s;
     configurationListeners := configurationListeners s;
     subscriptions := subscriptions s; settings := settings s;
     fileChangesDelayer := fileChangesDelayer s; cronCalls := cronCalls s;
     reloadCalls := reloadCalls s; clock := clock s |}.

Definition with_commands (f : gmap string Handler → gmap string Handler) (s : State) : State :=
  {| globalState := globalState s; commands := f (commands s);
     changeListeners := changeListeners s;
     configurationListeners := configurationListeners s;
     subscriptions := subscriptions s; settings := settings s;
     fileChangesDelayer := fileChangesDelayer s; cronCalls := cronCalls s;
     reloadCalls := reloadCalls s; clock := clock s |}.

Definition with_changeListeners (f : list ChangeListener → list ChangeListener) (s : State) : State :=
  {| globalState := globalState s; commands := commands s;
     changeListeners := f (changeListeners s);
     configurationListeners := configurationListeners s;
     subscriptions := subscriptions s; settings := settings s;
     fileChangesDelayer := fileChangesDelayer s; cronCalls := cronCalls s;
     reloadCalls := reloadCalls s; clock := clock s |}.

Definition with_configurationListeners (f : list ConfigurationListener → list ConfigurationListener) (s : State) : State :=
  {| globalState := globalState s; commands := commands s;
     changeListeners := changeListeners s;
     configurationListeners := f (configurationListeners s);
     subscriptions := subscriptions s; settings := settings s;
     fileChangesDelayer := fileChangesDelayer s; cronCalls := cronCalls s;
     reloadCalls := reloadCalls s; clock := clock s |}.

Definition with_subscriptions (f : list Disposable → list Disposable) (s : State) : State :=
  {| globalState := globalState s; commands := commands s;
     changeListeners := changeListeners s;
     configurationListeners := configurationListeners s;
     subscriptions := f (subscriptions s); settings := settings s;
     fileChangesDelayer := fileChangesDelayer s; cronCalls := cronCalls s;
     reloadCalls := reloadCalls s; clock := clock s |}.

Definition with_settings (v : option SettingsData) (s : State) : State :=
  {| globalState := globalState s; commands := commands s;
     changeListeners := changeListeners s;
     configurationListeners := configurationListeners s;
     subscriptions := subscriptions s; settings := v;
     fileChangesDelayer := fileChangesDelayer s; cronCalls := cronCalls s;
     reloadCalls := reloadCalls s; clock := clock s |}.

Definition with_fileChangesDelayer (v : option (Delayer.t Task)) (s : State) : State :=
  {| globalState := globalState s; commands := commands s;
     changeListeners := changeListeners s;
     configurationListeners := configurationListeners s;
     subscriptions := subscriptions s; settings := settings s;
     fileChangesDelayer := v; cronCalls := cronCalls s;
     reloadCalls := reloadCalls s; clock := clock s |}.

Definition with_cronCalls (n : nat) (s : State) : State :=
  {| globalState := globalState s; commands := commands s;
     changeListeners := changeListeners s;
     configurationListeners := configurationListeners s;
     subscriptions := subscriptions s; settings := settings s;
     fileChangesDelayer := fileChangesDelayer s; cronCalls := n;
     reloadCalls := reloadCalls s; clock := clock s |}.

Definition with_reloadCalls (n : nat) (s : State) : State :=
  {| globalState := globalState s; commands := commands s;
     changeListeners := changeListeners s;
     configurationListeners := configurationListeners s;
     subscriptions := subscriptions s; settings := settings s;
     fileChangesDelayer := fileChangesDelayer s; cronCalls := cronCalls s;
     reloadCalls := n; clock := clock s |}.

Definition with_clock (n : nat) (s : State) : State :=
  {| globalState := globalState s; commands := commands s;
     changeListeners := changeListeners s;
     configurationListeners := configurationListeners s;
     subscriptions := subscriptions s; settings := settings s;
     fileChangesDelayer := fileChangesDelayer s; cronCalls := cronCalls s;
     reloadCalls := reloadCalls s; clock := n |}.

(** A run: the state it ends in, what it did, what it completed with.
    A throw keeps the state and the effects made before it. *)
Record Outcome (A : Type) : Type := {
  final : State;
  events : list Event;
  value : Completion A;
}.
Arguments final {A} _.
Arguments events {A} _.
Arguments value {A} _.

Definition M (A : Type) : Type := State → Outcome A.

#[global] Instance M_ret : MRet M := λ A a s,
  {| final := s; events := []; value := Return a |}.

(** The run [o], after the effects [evs]. *)
Definition after_events {A} (evs : list Event) (o : Outcome A) : Outcome A :=
  {| final := final o; events := evs ++ events o; value := value o |}.

#[global] Instance M_bind : MBind M := λ A B k m s,
  let o := m s in
  match value o with
  | Return a => after_events (events o) (k a (final o))
  | Throw e => {| final := final o; events := events o; value := Throw e |}
  end.

(** [try { m } catch (error) { handler(error) }] *)
Definition try_catch {A} (m : M A) (handler : Error → M A) : M A := λ s,
  let o := m s in
  match value o with
  | Return a => o
  | Throw e => after_events (events o) (handler e (final o))
  end.

Definition emit (ev : Event) : M unit := λ s,
  {| final := s; events := [ev]; value := Return () |}.

Definition throw {A} (e : Error) : M A := λ s,
  {| final := s; events := []; value := Throw e |}.

Definition get_state : M State := λ s,
  {| final := s; events := []; value := Return s |}.

Definition modify (f : State → State) : M unit := λ s,
  {| final := f s; events := []; value := Return () |}.

Fixpoint sequence_ (l : list (M unit)) : M unit :=
  match l with
  | [] => mret ()
  | m :: l' => m ;; sequence_ l'
  end.

(** ** Host API used by [activate] *)

(** [context.globalState.get] and [.update]. *)
Definition globalState_get (key : string) : M (option string) := λ s,
  {| final := s; events := []; value := Return (globalState s !! key) |}.

Definition globalState_update (key v : string) : M unit :=
  modify (with_globalState <[key:=v]>).

(** [vscode.workspace.getConfiguration(section).get(key)]; [None] is
    [undefined]. *)
Definition getConfiguration (env : Env) (section key : string) : option string :=
  configuration env !! (section +:+ "." +:+ key).

(** [vscode.commands.registerCommand]: the host refuses an identifier
    that is already registered. *)
Definition registerCommand (id : string) (h : Handler) : M Disposable := λ s,
  match commands s !! id with
  | Some _ =>
      {| final := s; events := []; value := Throw (CommandAlreadyExists id) |}
  | None =>
      {| final := with_commands <[id:=h]> s;
         events := [EvRegisterCommand id h];
         value := Return (CommandRegistration id) |}
  end.

Definition registerTreeDataProvider (viewId : string) (items : list CommandItem) : M Disposable :=
  emit (EvRegisterTreeDataProvider viewId items) ;;
  mret (TreeDataProviderRegistration viewId).

(** ** Collaborators *)

(** Modelled from the spec: the [Settings] singleton of [./settings.js],
    which is not among the sources.  Section 4.1: [load()] reads the
    configuration into an in-memory singleton; [get()] returns the current
    configuration or fails with [NotLoadedError] if called before
    [load()]. *)
Definition Settings_load (env : Env) : M unit := λ s,
  match Settings_load_result env with
  | Return data =>
      {| final := with_settings (Some data) s;
         events := [EvSettingsLoad true]; value := Return () |}
  | Throw e =>
      {| final := s; events := [EvSettingsLoad false]; value := Throw e |}
  end.

Definition Settings_get : M SettingsData := λ s,
  match settings s with
  | Some data =>
      {| final := s; events := [EvSettingsGet true]; value := Return data |}
  | None =>
      {| final := s; events := [EvSettingsGet false]; value := Throw NotLoadedError |}
  end.

(** [setupCrons] of [./crons.js] and [RepositoryFactory.reload] of
    [./repository-factory.js] are not among the sources: a call is
    recorded and completes with what the environment says. *)
Definition setupCrons (env : Env) : M unit := λ s,
  {| final := with_cronCalls (S (cronCalls s)) s;
     events := [EvSetupCrons];
     value := match setupCrons_result env (cronCalls s) with
              | None => Return ()
              | Some e => Throw e
              end |}.

Definition RepositoryFactory_reload (env : Env) : M unit := λ s,
  {| final := with_reloadCalls (S (reloadCalls s)) s;
     events := [EvReload];
     value := match reload_result env (reloadCalls s) with
              | None => Return ()
              | Some e => Throw e
              end |}.

(** [Logger.error] of [./utils/logger.js] is not among the sources
    either: the call is recorded with the error it is given; what the
    logger does with it is not known here. *)
Definition Logger_error (e : Error) : M unit :=
  emit (EvLoggerError e).

(** ** [CommandsViewProvider] (lines 33-81) *)

Definition CommandsViewProvider_commands : list CommandItem := [
  {| label := "Create a new profile"; command := "syncSettings.createProfile"; description := Some "Create a new profile"; icon := Some "add" |};
  {| label := "Delete a profile"; command := "syncSettings.deleteProfile"; description := Some "Delete a profile"; icon := Some "trash" |};
  {| label := "Download (repository -> user)"; command := "syncSettings.download"; description := Some "Download (repository -> user)"; icon := Some "cloud-download" |};
  {| label := "List the missing extensions"; command := "syncSettings.listMissingExtensions"; description := Some "List the missing extensions"; icon := Some "extensions" |};
  {| label := "Reveal the profile in the file explorer"; command := "syncSettings.openProfileDirectory"; description := Some "Reveal the profile in the file explorer"; icon := Some "folder-opened" |};
  {| label := "Open the profile settings"; command := "syncSettings.openProfileSettings"; description := Some "Open the profile settings"; icon := Some "gear" |};
  {| label := "Reveal the repository in the file explorer"; command := "syncSettings.openRepositoryDirectory"; description := Some "Reveal the repository in the file explorer"; icon := Some "repo" |};
  {| label := "Open the repository settings"; command := "syncSettings.openSettings"; description := Some "Open the repository settings"; icon := Some "settings-gear" |};
  {| label := "Remove all settings and extensions"; command := "syncSettings.reset"; description := Some "Remove all settings and extensions"; icon := Some "clear-all" |};
  {| label := "Prompt if a difference between actual and saved settings is found"; command := "syncSettings.review"; description := Some "Prompt if a difference between actual and saved settings is found"; icon := Some "eye" |};
  {| label := "Switch to profile"; command := "syncSettings.switchProfile"; description := Some "Switch to profile"; icon := Some "arrow-swap" |};
  {| label := "Upload (user -> repository)"; command := "syncSettings.upload"; description := Some "Upload (user -> repository)"; icon := Some "cloud-upload" |};
  {| label := "View differences between actual and saved settings"; command := "syncSettings.viewDifferences"; description := Some "View differences between actual and saved settings"; icon := Some "diff" |}
].

(** [getChildren] (lines 78-80). *)
Definition getChildren : list CommandItem := CommandsViewProvider_commands.

(** [vscode.TreeItem] as [getTreeItem] fills it in (lines 57-76). *)
Record TreeItem : Set := {
  item_label : string;
  iconPath : string;
  tooltip : option string;
  item_command : string;
  item_title : string;
  contextValue : string;
}.

Definition getTreeItem (element : CommandItem) : TreeItem :=
  {| item_label := label element;
     iconPath := default "play" (icon element);
     tooltip := description element;
     item_command := command element;
     item_title := label element;
     contextValue := "button" |}.

(** ** [showWhatsNewMessage] (lines 83-109) *)

Definition whatsNew_actions : list string := ["Homepage"; "Release Notes"].

Definition whatsNew_text (version : string) : string :=
  "Sync Settings has been updated to v" +:+ version +:+ " — check out what's new!".

(** Up to the [await]: the message is put on screen. *)
Definition showWhatsNewMessage (version : string) : M unit :=
  emit (EvShowInformationMessage (whatsNew_text version) whatsNew_actions).

(** After the [await]: [result] is the position of the action the user
    picked, [None] when the message was dismissed. *)
Definition showWhatsNewMessage_resume (env : Env) (result : option nat) : M unit :=
  match result with
  | Some 0 => emit (EvExecuteCommand "vscode.open" (pkg_homepage env))
  | Some 1 => emit (EvExecuteCommand "vscode.open" (pkg_homepage env +:+ "/blob/master/CHANGELOG.md"))
  | _ => mret ()
  end.

(** ** [activate] (lines 111-192) *)

(** The thirteen [registerCommand] calls (lines 146-160), in order. *)
Definition registrations : list (string * Handler) := [
  ("syncSettings.createProfile", createProfile);
  ("syncSettings.deleteProfile", deleteProfile);
  ("syncSettings.download", download);
  ("syncSettings.listMissingExtensions", listMissingExtensions);
  ("syncSettings.openProfileDirectory", openProfileDirectory);
  ("syncSettings.openProfileSettings", openProfileSettings);
  ("syncSettings.openRepositoryDirectory", openRepositoryDirectory);
  ("syncSettings.openSettings", openSettings);
  ("syncSettings.reset", reset);
  ("syncSettings.review", review);
  ("syncSettings.switchProfile", switchProfile);
  ("syncSettings.upload", upload);
  ("syncSettings.viewDifferences", viewDifferences)
].

(** Arguments are evaluated left to right: a call that throws leaves the
    earlier registrations in place. *)
Fixpoint registerCommands (l : list (string * Handler)) : M (list Disposable) :=
  match l with
  | [] => mret []
  | (id, h) :: l' =>
      d ← registerCommand id h ;
      ds ← registerCommands l' ;
      mret (d :: ds)
  end.

(** [version.split('.')[i]] *)
Definition part (i : nat) (version : string) : option string :=
  JS.index (JS.split "." version) i.

(** The version check (lines 114-140). *)
Definition checkVersion (env : Env) : M unit :=
  previousVersion ← globalState_get VERSION_KEY ;
  let currentVersion := pkg_version env in
  let config := getConfiguration env "syncSettings" in
  if JS.strict_eq previousVersion None
     || negb (JS.strict_eq (Some currentVersion) previousVersion)
  then
    globalState_update VERSION_KEY currentVersion ;;
    let notification := config "notification" in
    match previousVersion with
    | None => mret ()  (* don't show notification on install *)
    | Some previousVersion =>
        if JS.strict_eq notification (Some "major") then
          if JS.gt (part 0 currentVersion) (part 0 previousVersion)
          then showWhatsNewMessage currentVersion
          else mret ()
        else if JS.strict_eq notification (Some "minor") then
          if JS.gt (part 0 currentVersion) (part 0 previousVersion)
             || (JS.strict_eq (part 0 currentVersion) (part 0 previousVersion)
                 && JS.gt (part 1 currentVersion) (part 1 previousVersion))
          then showWhatsNewMessage currentVersion
          else mret ()
        else if negb (JS.strict_eq notification (Some "none")) then
          showWhatsNewMessage currentVersion
        else mret ()
    end
  else mret ().

Definition activate (env : Env) : M unit :=
  emit (EvSetKeysForSync [VERSION_KEY]) ;;
  checkVersion env ;;
  Settings_load env ;;
  disposables ← registerCommands registrations ;
  let commandsProvider := CommandsViewProvider_commands in
  provider ← registerTreeDataProvider "syncSettingsCommands" commandsProvider ;
  let disposables := disposables ++ [provider] in
  settings ← Settings_get ;
  modify (with_fileChangesDelayer (Some (Delayer.create 200))) ;;
  emit (EvCreateFileSystemWatcher (settingsUri settings +:+ "/..") "settings.yml") ;;
  modify (with_changeListeners (λ l, l ++ [OnSettingsChange])) ;;
  setupCrons env ;;
  modify (with_configurationListeners (λ l, l ++ [OnConfigurationChange])) ;;
  modify (with_subscriptions (λ l, l ++ disposables)).

(** The task given to the delayer (lines 173-180). *)
Definition reloadTask (env : Env) : M unit :=
  try_catch (RepositoryFactory_reload env) (λ error, Logger_error error).

(** The [watcher.onDidChange] listener (lines 172-181): the promise that
    [trigger] returns is dropped by [void]. *)
Definition onSettingsChange : M unit := λ s,
  match fileChangesDelayer s with
  | Some d =>
      {| final := with_fileChangesDelayer (Some (Delayer.trigger ReloadTask (clock s) d)) s;
         events := []; value := Return () |}
  | None => {| final := s; events := []; value := Return () |}
  end.

(** The [onDidChangeConfiguration] listener (lines 185-189). *)
Definition onConfigurationChange (env : Env) (event : ConfigurationChangeEvent) : M unit :=
  if affectsConfiguration event "syncSettings.crons"
  then setupCrons env
  else mret ().

(** ** The host's event loop *)

(** A callback the host runs: an error that escapes it is an unhandled
    rejection. *)
Definition settle (m : M unit) : M unit :=
  try_catch m (λ e, emit (EvUnhandledRejection e)).

Definition run_task (env : Env) (t : Task) : M unit :=
  match t with ReloadTask => reloadTask env end.

Definition run_changeListener (l : ChangeListener) : M unit :=
  match l with OnSettingsChange => onSettingsChange end.

Definition run_configurationListener (env : Env) (event : ConfigurationChangeEvent)
    (l : ConfigurationListener) : M unit :=
  match l with OnConfigurationChange => onConfigurationChange env event end.

(** The watched [settings.yml] changes. *)
Definition fileChanged : M unit :=
  s ← get_state ;
  sequence_ (map (λ l, settle (run_changeListener l)) (changeListeners s)).

(** The configuration changes. *)
Definition configurationChanged (env : Env) (event : ConfigurationChangeEvent) : M unit :=
  s ← get_state ;
  sequence_ (map (λ l, settle (run_configurationListener env event l)) (configurationListeners s)).

(** Time passes until instant [t]: a timer that has expired by then runs
    its callback. *)
Definition advance (env : Env) (t : nat) : M unit :=
  s ← get_state ;
  (match fileChangesDelayer s with
   | Some d =>
       if Delayer.due t d then
         modify (with_fileChangesDelayer (Some (Delayer.fire d).2)) ;;
         match (Delayer.fire d).1 with
         | Some task => settle (run_task env task)
         | None => mret ()
         end
       else mret ()
   | None => mret ()
   end) ;;
  modify (λ s, with_clock (clock s `max` t) s).

(** Change events at the given instants. *)
Fixpoint burst (env : Env) (times : list nat) : M unit :=
  match times with
  | [] => mret ()
  | t :: times' => advance env t ;; fileChanged ;; burst env times'
  end.

Definition is_reload (ev : Event) : bool :=
  match ev with EvReload => true | _ => false end.

Definition reloads (evs : list Event) : nat := length (List.filter is_reload evs).

(** ** The Diff Engine *)

Module DiffEngine.

(** Modelled from the spec: the Diff Engine ([diff], [apply]), whose
    module is not among the sources.  Sections 3 and 4.2: a Snapshot is a
    timestamped capture of the parsed settings documents and of the
    extension list; [diff] compares the documents key by key and the
    extension list as a set of identifiers, looking at the recorded
    versions only when version tracking is on; a Patch is a list of change
    records {path, kind, old value, new value} ordered by path; [apply]
    applies every entry or fails and leaves the base as it was.  A change
    record has no place for a timestamp: the snapshot [apply] builds keeps
    the one of its base. *)

Inductive Kind : Set := added | removed | modified.

(** What a change record is about: a key of a settings document, or an
    extension identifier. *)
Inductive Target : Set :=
  | Setting (path : string)
  | Extension (id : string).

#[global] Instance Target_eq_dec : EqDecision Target.
Proof. solve_decision. Defined.

Record Change (Value : Type) : Type := {
  target : Target;
  kind : Kind;
  old_value : option Value;
  new_value : option Value;
}.
Arguments target {Value} _.
Arguments kind {Value} _.
Arguments old_value {Value} _.
Arguments new_value {Value} _.

Definition Patch (Value : Type) : Type := list (Change Value).

(** [extensions] maps the identifier of each listed extension to the
    version recorded for it. *)
Record Snapshot (Value : Type) : Type := {
  timestamp : nat;
  documents : gmap string Value;
  extensions : gmap string Value;
}.
Arguments timestamp {Value} _.
Arguments documents {Value} _.
Arguments extensions {Value} _.

Inductive DiffError : Set := MalformedDocumentError.

Inductive Result (A : Type) : Type :=
  | Ok (a : A)
  | Err (e : DiffError).
Arguments Ok {A} a.
Arguments Err {A} e.

(** The document path an entry is ordered by. *)
Definition change_path {Value} (c : Change Value) : string :=
  match target c with
  | Setting path => path
  | Extension id => "extensions.json/" +:+ id
  end.

Definition path_le {Value} (c1 c2 : Change Value) : Prop :=
  String.leb (change_path c1) (change_path c2) = true.

#[global] Instance path_le_dec {Value} : RelDecision (@path_le Value).
Proof. intros c1 c2. unfold path_le. apply _. Defined.

(** One key of a document, in the base and in the target. *)
Definition diff_value {Value} `{EqDecision Value} (b t : option Value)
    : option (Kind * option Value * option Value) :=
  match b, t with
  | None, None => None
  | None, Some v => Some (added, None, Some v)
  | Some o, None => Some (removed, Some o, None)
  | Some o, Some v =>
      if decide (o = v) then None else Some (modified, Some o, Some v)
  end.

(** One extension identifier, in the base and in the target: listed in
    one only, it is added or removed; listed in both, its versions are
    compared only under version tracking. *)
Definition diff_extension {Value} `{EqDecision Value} (track : bool)
    (b t : option Value) : option (Kind * option Value * option Value) :=
  match b, t with
  | Some _, Some _ => if track then diff_value b t else None
  | _, _ => diff_value b t
  end.

Definition entry {Value} (on : string → Target)
    (e : string * (Kind * option Value * option Value)) : Change Value :=
  {| target := on e.1; kind := e.2.1.1; old_value := e.2.1.2; new_value := e.2.2 |}.

Definition document_changes {Value} `{EqDecision Value}
    (base target : Snapshot Value) : list (Change Value) :=
  entry Setting <$> map_to_list (merge diff_value (documents base) (documents target)).

Definition extension_changes {Value} `{EqDecision Value} (track : bool)
    (base target : Snapshot Value) : list (Change Value) :=
  entry Extension
    <$> map_to_list (merge (diff_extension track) (extensions base) (extensions target)).

(** The entries of a patch, before they are ordered. *)
Definition changes {Value} `{EqDecision Value} (track : bool)
    (base target : Snapshot Value) : list (Change Value) :=
  document_changes base target ++ extension_changes track base target.

(** [track] is the version-tracking option of the configuration. *)
Definition diff {Value} `{EqDecision Value} (track : bool)
    (base target : Snapshot Value) : Patch Value :=
  merge_sort path_le (changes track base target).

(** What a snapshot holds at a target. *)
Definition view {Value} (s : Snapshot Value) (tg : Target) : option Value :=
  match tg with
  | Setting path => documents s !! path
  | Extension id => extensions s !! id
  end.

Definition store {Value} (tg : Target) (v : Value) (s : Snapshot Value) : Snapshot Value :=
  match tg with
  | Setting path =>
      {| timestamp := timestamp s; documents := <[path:=v]> (documents s);
         extensions := extensions s |}
  | Extension id =>
      {| timestamp := timestamp s; documents := documents s;
         extensions := <[id:=v]> (extensions s) |}
  end.

Definition erase {Value} (tg : Target) (s : Snapshot Value) : Snapshot Value :=
  match tg with
  | Setting path =>
      {| timestamp := timestamp s; documents := delete path (documents s);
         extensions := extensions s |}
  | Extension id =>
      {| timestamp := timestamp s; documents := documents s;
         extensions := delete id (extensions s) |}
  end.

(** One entry, checked against the snapshot it is applied to. *)
Definition apply_change {Value} `{EqDecision Value}
    (s : Snapshot Value) (c : Change Value) : option (Snapshot Value) :=
  match kind c, old_value c, new_value c with
  | added, None, Some v =>
      match view s (target c) with
      | None => Some (store (target c) v s)
      | Some _ => None
      end
  | removed, Some o, None =>
      if decide (view s (target c) = Some o) then Some (erase (target c) s) else None
  | modified, Some o, Some v =>
      if decide (view s (target c) = Some o) then Some (store (target c) v s) else None
  | _, _, _ => None
  end.

Fixpoint apply_changes {Value} `{EqDecision Value}
    (s : Snapshot Value) (p : Patch Value) : option (Snapshot Value) :=
  match p with
  | [] => Some s
  | c :: p' =>
      match apply_change s c with
      | Some s' => apply_changes s' p'
      | None => None
      end
  end.

(** All entries or none: on failure the caller still holds [base]. *)
Definition apply {Value} `{EqDecision Value}
    (base : Snapshot Value) (patch : Patch Value) : Result (Snapshot Value) :=
  match apply_changes base patch with
  | Some s => Ok s
  | None => Err MalformedDocumentError
  end.





(** Two captures of the same content at different instants, and two
    captures that differ in the version of an extension only. *)
Definition first_capture : Snapshot string :=
  {| timestamp := 1; documents := {[ "theme" := "dark" ]};
     extensions := {[ "ms.python" := "1.0.0" ]} |}.

Definition later_capture : Snapshot string :=
  {| timestamp := 2; documents := {[ "theme" := "dark" ]};
     extensions := {[ "ms.python" := "1.0.0" ]} |}.


End DiffEngine.

(** ** Auxiliary notions used by the statements *)

(** Only the command registry differs between the two states. *)
Definition commands_only (s s' : State) : Prop :=
  s' = with_commands (λ _, commands s') s.

(** Only the global state differs between the two states. *)
Definition globalState_only (s s' : State) : Prop :=
  s' = with_globalState (λ _, globalState s') s.

(** The runs of [activate], spelled out: it stops at the first of
    [Settings.load], a [registerCommand] call or [setupCrons] that
    throws, and otherwise completes. *)
Definition activate_outcome (env : Env) (s : State) : Outcome () :=
  let o0 := checkVersion env s in
  let pre := EvSetKeysForSync [VERSION_KEY] :: events o0 in
  match Settings_load_result env with
  | Throw e =>
      {| final := final o0; events := pre ++ [EvSettingsLoad false]; value := Throw e |}
  | Return data =>
      let o1 := registerCommands registrations (with_settings (Some data) (final o0)) in
      match value o1 with
      | Throw e =>
          {| final := final o1; events := pre ++ EvSettingsLoad true :: events o1;
             value := Throw e |}
      | Return ds =>
          let s2 := with_changeListeners (λ l, l ++ [OnSettingsChange])
                      (with_fileChangesDelayer (Some (Delayer.create 200)) (final o1)) in
          let s3 := with_cronCalls (S (cronCalls s)) s2 in
          let evs := pre ++ EvSettingsLoad true :: events o1 ++
                     [EvRegisterTreeDataProvider "syncSettingsCommands" CommandsViewProvider_commands;
                      EvSettingsGet true;
                      EvCreateFileSystemWatcher (settingsUri data +:+ "/..") "settings.yml";
                      EvSetupCrons] in
          match setupCrons_result env (cronCalls s) with
          | Some e => {| final := s3; events := evs; value := Throw e |}
          | None =>
              {| final := with_subscriptions
                            (λ l, l ++ (ds ++ [TreeDataProviderRegistration "syncSettingsCommands"]))
                            (with_configurationListeners (λ l, l ++ [OnConfigurationChange]) s3);
                 events := evs; value := Return () |}
          end
      end
  end.

Definition is_information_message (ev : Event) : bool :=
  match ev with EvShowInformationMessage _ _ => true | _ => false end.

Definition is_settings_get (ev : Event) : bool :=
  match ev with EvSettingsGet _ => true | _ => false end.

Definition is_logger_error (ev : Event) : bool :=
  match ev with EvLoggerError _ => true | _ => false end.

Definition is_unhandled_rejection (ev : Event) : bool :=
  match ev with EvUnhandledRejection _ => true | _ => false end.

Definition is_setupCrons (ev : Event) : bool :=
  match ev with EvSetupCrons => true | _ => false end.

(** The what's-new message was put on screen during the run. *)
Definition shows_whatsNew {A} (o : Outcome A) : bool :=
  existsb is_information_message (events o).

(** How many times [setupCrons] was invoked. *)
Definition cron_runs (evs : list Event) : nat :=
  length (List.filter is_setupCrons evs).

(** The commands a run registered, in order. *)
Definition registered (evs : list Event) : list (string * Handler) :=
  omap (λ ev, match ev with EvRegisterCommand id h => Some (id, h) | _ => None end) evs.

(** The decision lines 124-139 take once a previous version is known to
    differ from the current one. *)
Definition notifies (notification : option string) (previous current : string) : bool :=
  if JS.strict_eq notification (Some "major") then
    JS.gt (part 0 current) (part 0 previous)
  else if JS.strict_eq notification (Some "minor") then
    JS.gt (part 0 current) (part 0 previous)
    || (JS.strict_eq (part 0 current) (part 0 previous)
        && JS.gt (part 1 current) (part 1 previous))
  else negb (JS.strict_eq notification (Some "none")).

(** The notification rule with "increased" read on the numbers the
    components denote. *)
Definition expected_whatsNew (notification : option string) (previous current : string) : bool :=
  if bool_decide (notification = Some "none") then false
  else if bool_decide (notification = Some "major") then
    Numeric.increased 0 previous current
  else if bool_decide (notification = Some "minor") then
    Numeric.increased 0 previous current
    || (Numeric.same 0 previous current && Numeric.increased 1 previous current)
  else true.

(** The command names of section 6 of the specification. *)
Definition spec_commands : list string := [
  "createProfile"; "deleteProfile"; "download"; "upload"; "review"; "reset";
  "switchProfile"; "listMissingExtensions"; "viewDifferences";
  "openProfileDirectory"; "openProfileSettings"; "openRepositoryDirectory";
  "openSettings"
].

(** None of the identifiers [activate] registers is taken. *)
Definition fresh_registry (s : State) : Prop :=
  Forall (λ r : string * Handler, commands s !! r.1 = None) registrations.

(** Activation survives a failing [setupCrons]: the error is logged, the
    run completes, the commands and the configuration listener are in
    place. *)
Definition survives_cron_failure (env : Env) (s : State) : Prop :=
  ∀ e, setupCrons_result env (cronCalls s) = Some e →
    let o := activate env s in
    EvLoggerError e ∈ events o
    ∧ value o = Return ()
    ∧ Forall (λ r : string * Handler, commands (final o) !! r.1 = Some r.2) registrations
    ∧ OnConfigurationChange ∈ configurationListeners (final o).

(** The watcher is installed and its delayer holds a reload that is due
    one delay after the last change. *)
Definition armed (s : State) : Prop :=
  changeListeners s = [OnSettingsChange]
  ∧ fileChangesDelayer s
    = Some {| Delayer.defaultDelay := 200; Delayer.pending := Some ReloadTask;
              Delayer.timeout := Some (clock s + 200) |}.

(** The watcher is installed and its delayer has nothing pending. *)
Definition idle (s : State) : Prop :=
  changeListeners s = [OnSettingsChange]
  ∧ fileChangesDelayer s = Some (Delayer.create 200).

(** ** Sample inputs *)

Definition fresh_state : State :=
  {| globalState := ∅; commands := ∅; changeListeners := [];
     configurationListeners := []; subscriptions := []; settings := None;
     fileChangesDelayer := None; cronCalls := 0; reloadCalls := 0; clock := 0 |}.

Definition sample_env (version : string) (notification : option string)
    (crons reload : option Error) : Env :=
  {| pkg_version := version;
     pkg_homepage := "https://example.org/sync-settings";
     configuration :=
       match notification with
       | Some n => {[ "syncSettings.notification" := n ]}
       | None => ∅
       end;
     Settings_load_result := Return {| settingsUri := "/home/user/sync-settings/settings.yml" |};
     setupCrons_result := λ _, crons;
     reload_result := λ _, reload |}.

(** A host that ran version [previous] before. *)
Definition upgraded_from (previous : string) : State :=
  with_globalState <[VERSION_KEY:=previous]> fresh_state.

Definition crons_event : ConfigurationChangeEvent :=
  {| affectsConfiguration := λ key, bool_decide (key = "syncSettings.crons") |}.

(** A reload that fails, and a host in which the watched file changed at
    instant 10 after activation. *)
Definition reload_failure : Error := Failure "repository not found".

Definition failing_reload_env : Env :=
  sample_env "0.10.0" None None (Some reload_failure).

Definition changed_state : State :=
  final ((activate failing_reload_env ;; advance failing_reload_env 10 ;; fileChanged)
           fresh_state).

(** A schedule that cannot be set up. *)
Definition schedule_failure : Error := Failure "invalid cron expression".

Definition failing_crons_env : Env :=
  sample_env "0.10.0" None (Some schedule_failure) None.

Definition plain_env : Env := sample_env "0.10.0" None None None.

Definition sample_settings : SettingsData :=
  {| settingsUri := "/home/user/sync-settings/settings.yml" |}.

(** ** Further notions *)

Definition is_tree_provider (ev : Event) : bool :=
  match ev with EvRegisterTreeDataProvider _ _ => true | _ => false end.

(** The text is a decimal numeral. *)
Definition numeral (a : string) : Prop := is_Some (Numeric.decimal a).

(** Component [i] of both versions is a numeral, with the same number of
    digits in both. *)
Definition same_width (i : nat) (previous current : string) : Prop :=
  ∃ a b, part i previous = Some a ∧ part i current = Some b
         ∧ numeral a ∧ numeral b ∧ String.length a = String.length b.

(** Configuration-change events, one after the other. *)
Fixpoint configurationEvents (env : Env) (evl : list ConfigurationChangeEvent) : M unit :=
  match evl with
  | [] => mret ()
  | event :: evl' => configurationChanged env event ;; configurationEvents env evl'
  end.

(** How many of the events affect the cron schedules. *)
Definition affecting (evl : list ConfigurationChangeEvent) : nat :=
  length (List.filter (λ event, affectsConfiguration event "syncSettings.crons") evl).

(** The error was reported to the user or the log. *)
Definition is_error_report (ev : Event) : bool :=
  match ev with EvLoggerError _ | EvShowErrorMessage _ => true | _ => false end.

(** A host in which another extension took one of the identifiers. *)
Definition crowded_state : State :=
  with_commands <["syncSettings.download":=upload]> fresh_state.

Definition font_event : ConfigurationChangeEvent :=
  {| affectsConfiguration := λ key, bool_decide (key = "editor.fontSize") |}.

Definition load_failure : Error := Failure "settings file unreadable".

Definition failing_load_env : Env :=
  {| pkg_version := "0.10.0";
     pkg_homepage := "https://example.org/sync-settings";
     configuration := ∅;
     Settings_load_result := Throw load_failure;
     setupCrons_result := λ _, None;
     reload_result := λ _, None |}.

(** Every reschedule fails, but only after activation. *)
Definition late_failing_crons_env : Env :=
  {| pkg_version := "0.10.0";
     pkg_homepage := "https://example.org/sync-settings";
     configuration := ∅;
     Settings_load_result := Return sample_settings;
     setupCrons_result := λ n, if n is 0 then None else Some schedule_failure;
     reload_result := λ _, None |}.

Example split_version : JS.split "." "10.2.33" = ["10"; "2"; "33"].
Proof. reflexivity. Qed.

Example split_empty : JS.split "." "" = [""].
Proof. reflexivity. Qed.

Example split_trailing : JS.split "." "1." = ["1"; ""].
Proof. reflexivity. Qed.

Example gt_strings : JS.gt (Some "10") (Some "9") = false.
Proof. reflexivity. Qed.

Example gt_undefined : JS.gt (Some "1") None = false.
Proof. reflexivity. Qed.

Example component_major : Numeric.component 0 "10.0.0" = Some 10.
Proof. reflexivity. Qed.

(** * Properties *)

(** A closed decidable proposition, settled by evaluation. *)
Ltac decide_closed := apply (bool_decide_unpack _); vm_compute; exact I.

(** ** Running the monad *)

Section Monad.
Context {A B : Type}.

Lemma bind_Return (m : M A) (k : A → M B) s a :
  value (m s) = Return a →
  (m ≫= k) s = after_events (events (m s)) (k a (final (m s))).
Proof. intros Hv. unfold mbind, M_bind. simpl. by rewrite Hv. Qed.

Lemma bind_Throw (m : M A) (k : A → M B) s e :
  value (m s) = Throw e →
  (m ≫= k) s = {| final := final (m s); events := events (m s); value := Throw e |}.
Proof. intros Hv. unfold mbind, M_bind. simpl. by rewrite Hv. Qed.
End Monad.

Lemma bind_assoc {A B C} (m : M A) (k : A → M B) (h : B → M C) s :
  ((m ≫= k) ≫= h) s = (m ≫= (λ a, k a ≫= h)) s.
Proof.
  unfold mbind, M_bind. cbn beta zeta.
  destruct (m s) as [f evs [a|e]]; cbn [value final events after_events]; [|reflexivity].
  destruct (k a f) as [f' evs' [b|e]]; cbn [value final events after_events];
    [|reflexivity].
  unfold after_events. cbn [value final events]. by rewrite app_assoc.
Qed.

(** ** The steps of [activate] *)

Lemma commands_only_refl s : commands_only s s.
Proof. by destruct s. Qed.

Lemma registerCommands_frame l : ∀ s, commands_only s (final (registerCommands l s)).
Proof.
  induction l as [|[id h] l IH]; intros s; simpl.
  - apply commands_only_refl.
  - unfold mbind, M_bind. simpl. unfold registerCommand.
    destruct (commands s !! id) eqn:E; simpl; [apply commands_only_refl|].
    specialize (IH (with_commands <[id:=h]> s)).
    destruct (registerCommands l (with_commands <[id:=h]> s)) as [f evs [ds|e]]; simpl in *;
      unfold commands_only in *; rewrite IH at 1; reflexivity.
Qed.

Lemma registerCommands_settings l s :
  settings (final (registerCommands l s)) = settings s
  ∧ cronCalls (final (registerCommands l s)) = cronCalls s.
Proof.
  pose proof (registerCommands_frame l s) as H. unfold commands_only in H. by rewrite H.
Qed.

(** A run of [registerCommands] does nothing but register commands of
    its list. *)
Lemma registerCommands_events l : ∀ s ev,
  ev ∈ events (registerCommands l s) →
  ∃ id h, ev = EvRegisterCommand id h ∧ (id, h) ∈ l.
Proof.
  induction l as [|[id h] l IH]; intros s ev; simpl.
  - intros Hev. by apply elem_of_nil in Hev.
  - unfold mbind, M_bind. simpl. unfold registerCommand.
    destruct (commands s !! id) eqn:E; simpl.
    { intros Hev. by apply elem_of_nil in Hev. }
    specialize (IH (with_commands <[id:=h]> s)).
    destruct (registerCommands l (with_commands <[id:=h]> s)) as [f evs [ds|e]];
      simpl in *; rewrite ?app_nil_r.
    + intros [->|Hev]%elem_of_cons; [exists id, h; split; [done|left]|].
      destruct (IH ev Hev) as (id' & h' & -> & Hin). exists id', h'. split; [done|by right].
    + intros [->|Hev]%elem_of_cons; [exists id, h; split; [done|left]|].
      destruct (IH ev Hev) as (id' & h' & -> & Hin). exists id', h'. split; [done|by right].
Qed.

(** With no identifier taken, every call registers. *)
Lemma registerCommands_fresh l : ∀ s,
  NoDup l.*1 → Forall (λ r : string * Handler, commands s !! r.1 = None) l →
  registerCommands l s =
  {| final := with_commands (λ m, list_to_map l ∪ m) s;
     events := (λ r, EvRegisterCommand r.1 r.2) <$> l;
     value := Return (CommandRegistration <$> l.*1) |}.
Proof.
  induction l as [|[id h] l IH]; intros s Hnd Hfresh.
  - simpl. unfold mret, M_ret. f_equal. destruct s; unfold with_commands; simpl. f_equal.
    by rewrite (left_id_L ∅ (∪)).
  - rewrite fmap_cons in Hnd. apply NoDup_cons in Hnd as [Hid Hnd].
    apply Forall_cons in Hfresh as [Hfree Hfresh]. simpl in Hfree.
    cbn [registerCommands]. unfold mbind, M_bind. simpl. unfold registerCommand.
    rewrite Hfree. simpl.
    rewrite IH; [simpl| done |].
    + unfold after_events, with_commands; simpl. rewrite app_nil_r. f_equal. f_equal.
      rewrite <- insert_union_l. symmetry. apply insert_union_r.
      by apply not_elem_of_list_to_map_1.
    + rewrite Forall_forall in Hfresh. apply Forall_forall. intros [j hj] Hj.
      cbn [with_commands commands fst]. rewrite lookup_insert_ne; [by apply (Hfresh (j, hj))|].
      intros ->. apply Hid. apply list_elem_of_fmap. by exists (j, hj).
Qed.

(** The version check, case by case. *)
Lemma checkVersion_run env s :
  checkVersion env s =
  match globalState s !! VERSION_KEY with
  | None =>
      {| final := with_globalState <[VERSION_KEY:=pkg_version env]> s;
         events := []; value := Return () |}
  | Some previous =>
      if bool_decide (pkg_version env = previous)
      then {| final := s; events := []; value := Return () |}
      else
        {| final := with_globalState <[VERSION_KEY:=pkg_version env]> s;
           events :=
             if notifies (getConfiguration env "syncSettings" "notification")
                  previous (pkg_version env)
             then [EvShowInformationMessage (whatsNew_text (pkg_version env)) whatsNew_actions]
             else [];
           value := Return () |}
  end.
Proof.
  unfold checkVersion. unfold mbind at 1, M_bind at 1, globalState_get.
  cbn [final events value].
  destruct (globalState s !! VERSION_KEY) as [previous|]; [|reflexivity].
  replace (JS.strict_eq (Some previous) None
           || negb (JS.strict_eq (Some (pkg_version env)) (Some previous)))
    with (negb (bool_decide (pkg_version env = previous))).
  2:{ unfold JS.strict_eq. rewrite (bool_decide_eq_false_2 (Some previous = None)) by done.
      cbn [orb]. f_equal. apply bool_decide_ext. split; congruence. }
  case_bool_decide as Hsame; cbn [negb]; [reflexivity|].
  unfold mbind, M_bind, globalState_update, modify, notifies. cbn [final events value].
  repeat (match goal with |- context [if ?b then _ else _] => destruct b end);
    reflexivity.
Qed.

Lemma checkVersion_frame env s :
  globalState_only s (final (checkVersion env s))
  ∧ value (checkVersion env s) = Return ().
Proof.
  rewrite checkVersion_run. unfold globalState_only.
  destruct (globalState s !! VERSION_KEY) as [previous|]; [case_bool_decide|];
    split; try reflexivity. by destruct s.
Qed.

(** The version check puts nothing on screen but the what's-new message. *)
Lemma checkVersion_events env s ev :
  ev ∈ events (checkVersion env s) →
  ev = EvShowInformationMessage (whatsNew_text (pkg_version env)) whatsNew_actions.
Proof.
  rewrite checkVersion_run.
  destruct (globalState s !! VERSION_KEY) as [previous|]; [case_bool_decide|];
    cbn [events]; try (intros Hev; by apply elem_of_nil in Hev).
  destruct (notifies _ _ _); [|intros Hev; by apply elem_of_nil in Hev].
  by intros ->%list_elem_of_singleton.
Qed.

(** [activate] runs as [activate_outcome] spells out. *)
Lemma activate_run env s : activate env s = activate_outcome env s.
Proof.
  set (o0 := checkVersion env s). set (pre := EvSetKeysForSync [VERSION_KEY] :: events o0).
  destruct (checkVersion_frame env s) as [Hframe0 Hv0]. fold o0 in Hframe0, Hv0.
  assert (Hcron0 : cronCalls (final o0) = cronCalls s).
  { unfold globalState_only in Hframe0. by rewrite Hframe0. }
  assert (Hstart : ∀ k : () → M (),
    (emit (EvSetKeysForSync [VERSION_KEY]) ;; checkVersion env ;; Settings_load env ≫= k) s
    = after_events pre
        match Settings_load_result env with
        | Return data =>
            after_events [EvSettingsLoad true] (k () (with_settings (Some data) (final o0)))
        | Throw e =>
            {| final := final o0; events := [EvSettingsLoad false]; value := Throw e |}
        end).
  { intros k. rewrite (bind_Return (emit _) _ s ()) by reflexivity.
    rewrite (bind_Return (checkVersion env) _ s ()) by exact Hv0. fold o0.
    unfold after_events at 1 2. cbn [emit events final value]. unfold pre.
    unfold mbind at 1, M_bind at 1, Settings_load.
    destruct (Settings_load_result env); reflexivity. }
  unfold activate, activate_outcome. rewrite Hstart. clear Hstart. fold o0. fold pre.
  destruct (Settings_load_result env) as [data|e]; [|reflexivity].
  set (o1 := registerCommands registrations (with_settings (Some data) (final o0))).
  destruct (registerCommands_settings registrations (with_settings (Some data) (final o0)))
    as [Hset Hcron]. fold o1 in Hset, Hcron.
  cbn [with_settings settings cronCalls] in Hset, Hcron. rewrite Hcron0 in Hcron.
  cbv beta.
  destruct (value o1) as [ds|e] eqn:Hv1.
  - rewrite (bind_Return (registerCommands registrations) _ _ ds) by exact Hv1.
    fold o1. clearbody o1 pre. clear Hcron0 Hframe0 Hv0. clearbody o0.
    destruct (final o1) as [gs cmds cls cfls subs sett del crons rls clk].
    cbn [settings cronCalls] in Hset, Hcron. subst sett. rewrite <- Hcron.
    clear Hcron Hv1. generalize (events o1). intros evs1.
    lazy [mbind M_bind mret M_ret after_events registerTreeDataProvider Settings_get
          setupCrons emit modify final events value settings cronCalls
          with_fileChangesDelayer with_changeListeners].
    destruct (setupCrons_result env crons) as [e|];
      cbn [app]; rewrite ?app_nil_r; reflexivity.
  - rewrite (bind_Throw (registerCommands registrations) _ _ e) by exact Hv1.
    reflexivity.
Qed.

Lemma registerCommands_quiet (p : Event → bool) l s :
  (∀ id h, p (EvRegisterCommand id h) = false) →
  existsb p (events (registerCommands l s)) = false.
Proof.
  intros Hp. apply not_true_iff_false. intros (ev & Hin & Hev)%existsb_exists.
  apply list_elem_of_In, registerCommands_events in Hin as (id & h & -> & _).
  by rewrite Hp in Hev.
Qed.

Lemma registerCommands_globalState l s :
  globalState (final (registerCommands l s)) = globalState s.
Proof.
  pose proof (registerCommands_frame l s) as H. unfold commands_only in H. by rewrite H.
Qed.

(** ** The what's-new message *)

(** C10: on first activation, with no version stored in global state,
    no what's-new message is shown whatever the notification option is,
    and the current version is written to global state. *)
Theorem first_activation_is_silent env s :
  globalState s !! VERSION_KEY = None →
  shows_whatsNew (activate env s) = false
  ∧ globalState (final (activate env s)) !! VERSION_KEY = Some (pkg_version env).
Proof.
  intros Hnone. rewrite activate_run. unfold activate_outcome, shows_whatsNew.
  pose proof (checkVersion_run env s) as Hcv. rewrite Hnone in Hcv. rewrite Hcv.
  cbn [final events]. clear Hcv.
  set (s1 := with_globalState <[VERSION_KEY:=pkg_version env]> s).
  assert (Hs1 : globalState s1 !! VERSION_KEY = Some (pkg_version env)).
  { unfold s1. cbn [with_globalState globalState]. apply lookup_insert_eq. }
  destruct (Settings_load_result env) as [data|e]; [|by split].
  set (o1 := registerCommands registrations (with_settings (Some data) s1)).
  assert (Hq : existsb is_information_message (events o1) = false)
    by (by apply registerCommands_quiet).
  assert (Hg : globalState (final o1) = globalState s1)
    by apply (registerCommands_globalState registrations (with_settings (Some data) s1)).
  destruct (value o1) as [ds|e].
  - destruct (setupCrons_result env (cronCalls s)) as [e|];
      cbn [final events app existsb is_information_message orb];
      rewrite existsb_app, Hq; (split; [reflexivity|]);
      cbn [with_subscriptions with_configurationListeners with_cronCalls
           with_changeListeners with_fileChangesDelayer globalState];
      by rewrite Hg.
  - cbn [final events app existsb is_information_message orb]. rewrite Hq, Hg. by split.
Qed.

Lemma first_activation_is_silent_witness :
  globalState fresh_state !! VERSION_KEY = None
  ∧ shows_whatsNew (activate (sample_env "0.10.0" (Some "all") None None) fresh_state) = false
  ∧ globalState (final (activate (sample_env "0.10.0" (Some "all") None None) fresh_state))
      !! VERSION_KEY = Some "0.10.0".
Proof.
  split; [reflexivity|].
  apply (first_activation_is_silent (sample_env "0.10.0" (Some "all") None None) fresh_state).
  reflexivity.
Defined.

(** Nothing after the version check puts an information message on
    screen. *)
Lemma activate_shows env s :
  shows_whatsNew (activate env s) = shows_whatsNew (checkVersion env s).
Proof.
  rewrite activate_run. unfold activate_outcome, shows_whatsNew.
  set (o0 := checkVersion env s).
  destruct (Settings_load_result env) as [data|e].
  - set (o1 := registerCommands registrations (with_settings (Some data) (final o0))).
    assert (Hq : existsb is_information_message (events o1) = false)
      by (by apply registerCommands_quiet).
    destruct (value o1) as [ds|e]; [destruct (setupCrons_result env (cronCalls s))|];
      cbn [events existsb is_information_message orb];
      rewrite !existsb_app; cbn [existsb is_information_message orb];
      rewrite ?existsb_app, Hq; cbn [existsb is_information_message orb];
      by rewrite ?orb_false_r.
  - cbn [events existsb is_information_message orb]. rewrite existsb_app.
    cbn [existsb is_information_message orb]. by rewrite orb_false_r.
Qed.

(** With a previous version stored that differs from the current one,
    the message is shown exactly when [notifies] says so. *)
Lemma whatsNew_decision env s previous :
  globalState s !! VERSION_KEY = Some previous →
  pkg_version env ≠ previous →
  shows_whatsNew (activate env s)
  = notifies (getConfiguration env "syncSettings" "notification") previous (pkg_version env).
Proof.
  intros Hprev Hne. rewrite activate_shows. unfold shows_whatsNew.
  rewrite checkVersion_run, Hprev. rewrite bool_decide_eq_false_2 by done.
  cbn [events]. by destruct (notifies _ _ _).
Qed.

(** The same version again: nothing is shown. *)
Lemma whatsNew_same_version env s :
  globalState s !! VERSION_KEY = Some (pkg_version env) →
  shows_whatsNew (activate env s) = false.
Proof.
  intros Hprev. rewrite activate_shows. unfold shows_whatsNew.
  rewrite checkVersion_run, Hprev. by rewrite bool_decide_eq_true_2.
Qed.

(** The branches of the rule that do not look at the components. *)
Lemma notifies_none previous current : notifies (Some "none") previous current = false.
Proof. reflexivity. Qed.

Lemma notifies_otherwise notification previous current :
  notification ≠ Some "major" → notification ≠ Some "minor" →
  notification ≠ Some "none" →
  notifies notification previous current = true.
Proof.
  intros Hmajor Hminor Hnone. unfold notifies, JS.strict_eq.
  by rewrite !bool_decide_eq_false_2.
Qed.

Lemma notifies_expected notification previous current :
  notification ≠ Some "major" → notification ≠ Some "minor" →
  notifies notification previous current = expected_whatsNew notification previous current.
Proof.
  intros Hmajor Hminor. unfold notifies, expected_whatsNew, JS.strict_eq.
  rewrite (bool_decide_eq_false_2 _ Hmajor), (bool_decide_eq_false_2 _ Hminor).
  by case_bool_decide.
Qed.

(** The first component of a dotted version always exists. *)
Lemma split_head sep s : ∃ hd tl, JS.split sep s = hd :: tl.
Proof.
  induction s as [|c s IH]; simpl; [by eexists _, _|].
  destruct (Ascii.eqb c sep); [by eexists _, _|].
  destruct IH as (hd & tl & ->). by eexists _, _.
Qed.

(** The 'major' test is the lexicographic order on the text of the
    first components. *)
Lemma notifies_major_is_string_order previous current :
  notifies (Some "major") previous current
  = String.ltb (List.hd "" (JS.split "." previous)) (List.hd "" (JS.split "." current)).
Proof.
  unfold notifies, JS.strict_eq. rewrite bool_decide_eq_true_2 by done.
  unfold part, JS.index.
  destruct (split_head "." previous) as (p & ps & ->).
  destruct (split_head "." current) as (c & cs & ->).
  reflexivity.
Qed.

(** C2: the code departs from the notification rule read on version
    numbers.  Going from 10.0.0 to 9.0.0 with 'major' shows the message
    although the major component did not increase; going from 9.0.0 to
    10.0.0 shows nothing although it did; and likewise for the minor
    component from 0.9.0 to 0.10.0 with 'minor'. *)
Theorem whatsNew_departs_from_numeric_rule :
  (shows_whatsNew (activate (sample_env "9.0.0" (Some "major") None None) (upgraded_from "10.0.0"))
   = true
   ∧ expected_whatsNew (Some "major") "10.0.0" "9.0.0" = false)
  ∧ (shows_whatsNew (activate (sample_env "10.0.0" (Some "major") None None) (upgraded_from "9.0.0"))
     = false
     ∧ expected_whatsNew (Some "major") "9.0.0" "10.0.0" = true)
  ∧ (shows_whatsNew (activate (sample_env "0.10.0" (Some "minor") None None) (upgraded_from "0.9.0"))
     = false
     ∧ expected_whatsNew (Some "minor") "0.9.0" "0.10.0" = true).
Proof. repeat split; vm_compute; reflexivity. Qed.


(** ** The commands *)

Lemma registrations_NoDup : NoDup registrations.*1.
Proof. decide_closed. Qed.

Lemma registered_app evs1 evs2 : registered (evs1 ++ evs2) = registered evs1 ++ registered evs2.
Proof. apply omap_app. Qed.

Lemma registered_register l :
  registered ((λ r : string * Handler, EvRegisterCommand r.1 r.2) <$> l) = l.
Proof.
  induction l as [|[id h] l IH]; [done|].
  rewrite fmap_cons. unfold registered in *. cbn [omap list_omap fst snd]. by rewrite IH.
Qed.

Lemma registered_checkVersion env s : registered (events (checkVersion env s)) = [].
Proof.
  rewrite checkVersion_run.
  destruct (globalState s !! VERSION_KEY); [case_bool_decide|]; cbn [events]; try done.
  by destruct (notifies _ _ _).
Qed.

(** The registration step of [activate] on a registry with none of the
    identifiers taken. *)
Lemma registration_step env s data :
  fresh_registry s →
  registerCommands registrations (with_settings (Some data) (final (checkVersion env s)))
  = {| final := with_commands (λ m, list_to_map registrations ∪ m)
                  (with_settings (Some data) (final (checkVersion env s)));
       events := (λ r, EvRegisterCommand r.1 r.2) <$> registrations;
       value := Return (CommandRegistration <$> registrations.*1) |}.
Proof.
  intros Hfresh. apply registerCommands_fresh; [apply registrations_NoDup|].
  destruct (checkVersion_frame env s) as [Hframe _]. unfold globalState_only in Hframe.
  cbn [with_settings commands]. rewrite Hframe. exact Hfresh.
Qed.

(** The registry once the registrations of [activate] are done, whether
    or not [setupCrons] then throws. *)
Lemma registered_cons ev evs : registered (ev :: evs) = registered [ev] ++ registered evs.
Proof. apply (registered_app [ev] evs). Qed.

Lemma activate_registers env s data :
  Settings_load_result env = Return data →
  fresh_registry s →
  registered (events (activate env s)) = registrations
  ∧ commands (final (activate env s)) = list_to_map registrations ∪ commands s.
Proof.
  intros Hload Hfresh. rewrite activate_run. unfold activate_outcome. rewrite Hload.
  rewrite (registration_step env s data Hfresh). cbn [value final events].
  pose proof (registered_checkVersion env s) as Hreg0.
  destruct (checkVersion_frame env s) as [Hframe0 _]. unfold globalState_only in Hframe0.
  assert (Hc0 : commands (final (checkVersion env s)) = commands s)
    by (by rewrite Hframe0).
  assert (Hevents : ∀ tail, registered tail = [] →
    registered ((EvSetKeysForSync [VERSION_KEY] :: events (checkVersion env s)) ++
                EvSettingsLoad true
                :: ((λ r : string * Handler, EvRegisterCommand r.1 r.2) <$> registrations)
                   ++ tail) = registrations).
  { intros tail Htail.
    rewrite registered_app, registered_cons, Hreg0, (registered_cons (EvSettingsLoad true)),
      registered_app, registered_register, Htail.
    cbn [registered omap list_omap app]. by rewrite app_nil_r. }
  destruct (setupCrons_result env (cronCalls s)) as [e|]; cbn [final events];
    (split; [by apply Hevents|]);
    cbn [commands with_subscriptions with_configurationListeners with_cronCalls
         with_changeListeners with_fileChangesDelayer with_commands with_settings];
    by rewrite Hc0.
Qed.

(** C3: [activate] registers exactly the thirteen commands createProfile,
    deleteProfile, download, upload, review, reset, switchProfile,
    listMissingExtensions, viewDifferences, openProfileDirectory,
    openProfileSettings, openRepositoryDirectory and openSettings, each
    under the [syncSettings.] prefix and bound one-to-one to the handler of
    the same name, and no other command; the commands view lists the same
    thirteen identifiers. *)
Theorem activate_registers_thirteen_commands env s data :
  Settings_load_result env = Return data →
  fresh_registry s →
  registered (events (activate env s)) = registrations
  ∧ length registrations = 13
  ∧ registrations.*1 ≡ₚ String.append "syncSettings." <$> spec_commands
  ∧ Forall (λ r : string * Handler, r.1 = "syncSettings." +:+ handler_name r.2) registrations
  ∧ NoDup registrations.*1
  ∧ NoDup registrations.*2
  ∧ (∀ id h, (id, h) ∈ registrations → commands (final (activate env s)) !! id = Some h)
  ∧ (∀ id, id ∉ registrations.*1 →
       commands (final (activate env s)) !! id = commands s !! id)
  ∧ command <$> getChildren ≡ₚ registrations.*1.
Proof.
  intros Hload Hfresh.
  destruct (activate_registers env s data Hload Hfresh) as [Hreg Hcmd].
  split; [exact Hreg|]. split; [reflexivity|].
  split; [decide_closed|].
  split; [decide_closed|].
  split; [apply registrations_NoDup|].
  split; [decide_closed|].
  split; [|split].
  - intros id h Hin. rewrite Hcmd. apply lookup_union_Some_l.
    apply elem_of_list_to_map_1; [apply registrations_NoDup|exact Hin].
  - intros id Hid. rewrite Hcmd. apply lookup_union_r.
    by apply not_elem_of_list_to_map_1.
  - decide_closed.
Qed.

Lemma activate_registers_thirteen_commands_witness :
  Settings_load_result (sample_env "0.10.0" None None None)
  = Return {| settingsUri := "/home/user/sync-settings/settings.yml" |}
  ∧ fresh_registry fresh_state
  ∧ registered (events (activate (sample_env "0.10.0" None None None) fresh_state))
    = registrations
  ∧ commands (final (activate (sample_env "0.10.0" None None None) fresh_state))
      !! "syncSettings.upload" = Some upload.
Proof.
  assert (Hfresh : fresh_registry fresh_state)
    by (decide_closed).
  split; [reflexivity|]. split; [exact Hfresh|].
  destruct (activate_registers_thirteen_commands
              (sample_env "0.10.0" None None None) fresh_state
              {| settingsUri := "/home/user/sync-settings/settings.yml" |}
              eq_refl Hfresh)
    as (Hreg & _ & _ & _ & _ & _ & Hin & _).
  split; [exact Hreg|].
  apply Hin. decide_closed.
Defined.

(** ** Settings are loaded before they are read *)

(** An occurrence of [x] in [l1 ++ l2] lies in [l2] when [l1] has
    nothing like it. *)
Lemma split_past {A} (p : A → bool) (l1 l2 before after : list A) x :
  existsb p l1 = false → p x = true →
  l1 ++ l2 = before ++ x :: after →
  ∃ mid, before = l1 ++ mid ∧ l2 = mid ++ x :: after.
Proof.
  revert before. induction l1 as [|y l1 IH]; intros before Hno Hx Heq.
  - exists before. by split.
  - cbn [existsb] in Hno. apply orb_false_iff in Hno as [Hy Hno].
    destruct before as [|b before]; cbn [app] in Heq.
    + injection Heq as -> _. congruence.
    + injection Heq as -> Heq. destruct (IH before Hno Hx Heq) as (mid & -> & ->).
      by exists mid.
Qed.

Lemma checkVersion_no_get env s :
  existsb is_settings_get (events (checkVersion env s)) = false.
Proof.
  rewrite checkVersion_run.
  destruct (globalState s !! VERSION_KEY); [case_bool_decide|]; cbn [events]; try done.
  by destruct (notifies _ _ _).
Qed.

Lemma existsb_elem_of {A} (p : A → bool) (l before after : list A) x :
  existsb p l = false → p x = true → l ≠ before ++ x :: after.
Proof.
  intros Hno Hx ->. rewrite existsb_app in Hno. cbn [existsb] in Hno.
  rewrite Hx in Hno. by destruct (existsb p before).
Qed.

(** The shape of a completed registration phase: the only read of the
    settings comes after the load. *)
Lemma get_follows_load (ev0 ev1 tail before after : list Event) first tree loaded :
  is_settings_get first = false → is_settings_get tree = false →
  existsb is_settings_get ev0 = false →
  existsb is_settings_get ev1 = false →
  existsb is_settings_get tail = false →
  (first :: ev0) ++ EvSettingsLoad true :: ev1 ++ tree :: EvSettingsGet true :: tail
  = before ++ EvSettingsGet loaded :: after →
  loaded = true ∧ EvSettingsLoad true ∈ before.
Proof.
  intros Hfirst Htree H0 H1 Htail Heq.
  assert (Heq' : ((first :: ev0) ++ EvSettingsLoad true :: ev1 ++ [tree])
                 ++ EvSettingsGet true :: tail
                 = before ++ EvSettingsGet loaded :: after).
  { rewrite <- Heq. rewrite <- app_assoc. cbn [app]. by rewrite <- app_assoc. }
  apply (split_past is_settings_get) in Heq' as (mid & -> & Hmid); [| |done].
  - destruct mid as [|m mid]; cbn [app] in Hmid.
    + injection Hmid as <- _. split; [done|].
      rewrite app_nil_r. apply elem_of_app. right. left.
    + injection Hmid as _ Hmid. exfalso.
      by apply (existsb_elem_of is_settings_get tail mid after (EvSettingsGet loaded)).
  - rewrite existsb_app. cbn [app existsb]. rewrite Hfirst, H0. cbn [orb is_settings_get].
    rewrite existsb_app, H1. cbn [existsb orb]. by rewrite Htree.
Qed.

(** C4: in every run of [activate], wherever [Settings.get()] is called
    [Settings.load(context)] has completed before it and the call finds
    the settings loaded: the [NotLoadedError] branch of [get()] is not
    taken during activation. *)
Theorem settings_loaded_before_get env s before loaded after :
  events (activate env s) = before ++ EvSettingsGet loaded :: after →
  loaded = true ∧ EvSettingsLoad true ∈ before.
Proof.
  rewrite activate_run. unfold activate_outcome.
  pose proof (checkVersion_no_get env s) as Hno0.
  set (o0 := checkVersion env s) in *.
  destruct (Settings_load_result env) as [data|e].
  - set (o1 := registerCommands registrations (with_settings (Some data) (final o0))).
    assert (Hno1 : existsb is_settings_get (events o1) = false)
      by (by apply registerCommands_quiet).
    destruct (value o1) as [ds|e].
    + destruct (setupCrons_result env (cronCalls s)) as [e|]; cbn [events];
        by apply get_follows_load.
    + cbn [events]. intros Heq. exfalso.
      revert Heq. apply (existsb_elem_of is_settings_get); [|done].
      rewrite existsb_app. cbn [existsb is_settings_get orb]. by rewrite Hno0, Hno1.
  - cbn [events]. intros Heq. exfalso.
    revert Heq. apply (existsb_elem_of is_settings_get); [|done].
    rewrite existsb_app. cbn [existsb is_settings_get orb]. by rewrite Hno0.
Qed.

Lemma settings_loaded_before_get_witness :
  ∃ before after,
    events (activate (sample_env "0.10.0" None None None) fresh_state)
    = before ++ EvSettingsGet true :: after
    ∧ EvSettingsLoad true ∈ before.
Proof.
  eexists (firstn 16 (events (activate (sample_env "0.10.0" None None None) fresh_state))),
          (skipn 17 (events (activate (sample_env "0.10.0" None None None) fresh_state))).
  assert (Heq : events (activate (sample_env "0.10.0" None None None) fresh_state)
    = firstn 16 (events (activate (sample_env "0.10.0" None None None) fresh_state))
      ++ EvSettingsGet true
      :: skipn 17 (events (activate (sample_env "0.10.0" None None None) fresh_state)))
    by (vm_compute; reflexivity).
  split; [exact Heq|].
  exact (proj2 (settings_loaded_before_get _ _ _ _ _ Heq)).
Defined.

(** ** Reload errors in the watcher *)

Lemma reloadTask_run env s :
  reloadTask env s =
  match reload_result env (reloadCalls s) with
  | None =>
      {| final := with_reloadCalls (S (reloadCalls s)) s; events := [EvReload];
         value := Return () |}
  | Some e =>
      {| final := with_reloadCalls (S (reloadCalls s)) s;
         events := [EvReload; EvLoggerError e];
         value := Return () |}
  end.
Proof.
  unfold reloadTask, try_catch, RepositoryFactory_reload. cbn [value final events].
  destruct (reload_result env (reloadCalls s)); reflexivity.
Qed.

(** The task never throws, so the host sees no rejection from it. *)
Lemma settle_reloadTask env s : settle (reloadTask env) s = reloadTask env s.
Proof.
  unfold settle, try_catch. rewrite reloadTask_run.
  destruct (reload_result env (reloadCalls s)); reflexivity.
Qed.

(** The timer callback of an armed delayer runs the reload task. *)
Lemma advance_due env s d t :
  fileChangesDelayer s = Some d →
  Delayer.pending d = Some ReloadTask →
  Delayer.due t d = true →
  advance env t s =
  let s1 := with_fileChangesDelayer (Some (Delayer.fire d).2) s in
  let o := reloadTask env s1 in
  {| final := with_clock (clock s `max` t) (final o); events := events o;
     value := Return () |}.
Proof.
  intros Hd Hp Hdue. unfold advance.
  rewrite (bind_Return get_state _ s s) by reflexivity.
  cbn [get_state final events]. rewrite Hd, Hdue.
  cbn [Delayer.fire fst snd]. rewrite Hp. cbn [run_task].
  unfold mbind, M_bind, modify. cbn [final events value].
  rewrite settle_reloadTask, reloadTask_run.
  cbn [with_fileChangesDelayer reloadCalls].
  destruct (reload_result env (reloadCalls s)); reflexivity.
Qed.

(** What the source decides about an error thrown by
    [RepositoryFactory.reload()] during a reload the watcher triggered: it
    is caught and handed to [Logger.error], once, and does not leave the
    handler; the task completes normally and the host sees no rejection.
    Whether the logger shows it to the user is the logger's business. *)
Lemma watcher_reload_error_is_caught env s d t e :
  fileChangesDelayer s = Some d →
  Delayer.pending d = Some ReloadTask →
  Delayer.due t d = true →
  reload_result env (reloadCalls s) = Some e →
  value (reloadTask env s) = Return ()
  ∧ events (reloadTask env s) = [EvReload; EvLoggerError e]
  ∧ value (advance env t s) = Return ()
  ∧ events (advance env t s) = [EvReload; EvLoggerError e]
  ∧ existsb is_unhandled_rejection (events (advance env t s)) = false.
Proof.
  intros Hd Hp Hdue He.
  rewrite (advance_due env s d t Hd Hp Hdue). cbv zeta.
  rewrite !reloadTask_run. cbn [with_fileChangesDelayer reloadCalls]. rewrite He.
  cbn [value events]. by repeat split.
Qed.

Lemma watcher_reload_error_is_caught_witness :
  fileChangesDelayer changed_state
  = Some (Delayer.trigger ReloadTask 10 (Delayer.create 200))
  ∧ events (advance failing_reload_env 210 changed_state)
    = [EvReload; EvLoggerError reload_failure]
  ∧ value (advance failing_reload_env 210 changed_state) = Return ().
Proof.
  assert (Hd : fileChangesDelayer changed_state
               = Some (Delayer.trigger ReloadTask 10 (Delayer.create 200)))
    by (vm_compute; reflexivity).
  split; [exact Hd|].
  destruct (watcher_reload_error_is_caught failing_reload_env changed_state _ 210
              reload_failure Hd eq_refl eq_refl eq_refl) as (_ & _ & Hv & Hev & _).
  split; [exact Hev|exact Hv].
Defined.

(** ** What a completed activation leaves behind *)

Lemma activate_completed env s :
  value (activate env s) = Return () →
  configurationListeners (final (activate env s))
  = configurationListeners s ++ [OnConfigurationChange]
  ∧ changeListeners (final (activate env s)) = changeListeners s ++ [OnSettingsChange]
  ∧ fileChangesDelayer (final (activate env s)) = Some (Delayer.create 200)
  ∧ clock (final (activate env s)) = clock s.
Proof.
  rewrite activate_run. unfold activate_outcome.
  destruct (checkVersion_frame env s) as [Hframe0 _].
  set (o0 := checkVersion env s) in *.
  destruct (Settings_load_result env) as [data|e]; [|done].
  pose proof (registerCommands_frame registrations (with_settings (Some data) (final o0)))
    as Hframe1.
  set (o1 := registerCommands registrations (with_settings (Some data) (final o0))) in *.
  destruct (value o1) as [ds|e]; [|done].
  destruct (setupCrons_result env (cronCalls s)) as [e|]; [done|].
  intros _. cbn [final].
  cbn [with_subscriptions with_configurationListeners with_cronCalls with_changeListeners
       with_fileChangesDelayer configurationListeners changeListeners fileChangesDelayer clock].
  unfold commands_only in Hframe1. unfold globalState_only in Hframe0.
  rewrite Hframe1. cbn [with_commands with_settings configurationListeners changeListeners clock].
  rewrite Hframe0. by cbn.
Qed.

(** ** Configuration changes *)

Lemma cron_runs_app evs1 evs2 : cron_runs (evs1 ++ evs2) = cron_runs evs1 + cron_runs evs2.
Proof. unfold cron_runs. by rewrite List.filter_app, length_app. Qed.

Lemma settle_configurationListener env event l s :
  value (settle (run_configurationListener env event l) s) = Return ()
  ∧ cron_runs (events (settle (run_configurationListener env event l) s))
    = if affectsConfiguration event "syncSettings.crons" then 1 else 0.
Proof.
  destruct l. unfold settle, try_catch, run_configurationListener, onConfigurationChange.
  destruct (affectsConfiguration event "syncSettings.crons"); [|by split].
  unfold setupCrons. cbn [value final events].
  destruct (setupCrons_result env (cronCalls s)); by split.
Qed.

Lemma dispatch_configuration env event ls : ∀ s,
  value (sequence_ (map (λ l, settle (run_configurationListener env event l)) ls) s)
  = Return ()
  ∧ cron_runs
      (events (sequence_ (map (λ l, settle (run_configurationListener env event l)) ls) s))
    = if affectsConfiguration event "syncSettings.crons" then length ls else 0.
Proof.
  induction ls as [|l ls IH]; intros s; cbn [map sequence_ length].
  - split; [done|]. by destruct (affectsConfiguration _ _).
  - destruct (settle_configurationListener env event l s) as [Hv Hn].
    rewrite (bind_Return _ _ s () Hv). unfold after_events. cbn [value events].
    destruct (IH (final (settle (run_configurationListener env event l) s))) as [Hv' Hn'].
    split; [exact Hv'|]. rewrite cron_runs_app, Hn, Hn'.
    by destruct (affectsConfiguration _ _).
Qed.

Lemma configurationChanged_runs env event s :
  cron_runs (events (configurationChanged env event s))
  = if affectsConfiguration event "syncSettings.crons"
    then length (configurationListeners s) else 0.
Proof.
  unfold configurationChanged.
  rewrite (bind_Return get_state _ s s) by reflexivity.
  unfold after_events. cbn [get_state final events app].
  apply dispatch_configuration.
Qed.

(** C7: for every configuration-change event after activation,
    [setupCrons()] is invoked again if and only if the event affects
    [syncSettings.crons]; it is then invoked once by the listener
    [activate] installed. *)
Theorem crons_rearmed_iff_affected env s event :
  value (activate env s) = Return () →
  (0 < cron_runs (events (configurationChanged env event (final (activate env s))))
   ↔ affectsConfiguration event "syncSettings.crons" = true)
  ∧ cron_runs (events (configurationChanged env event (final (activate env s))))
    = if affectsConfiguration event "syncSettings.crons"
      then S (length (configurationListeners s)) else 0.
Proof.
  intros Hok. destruct (activate_completed env s Hok) as (Hl & _).
  rewrite configurationChanged_runs, Hl, length_app. cbn [length].
  destruct (affectsConfiguration event "syncSettings.crons"); split; try split;
    try lia; try done.
Qed.

Lemma crons_rearmed_iff_affected_witness :
  value (activate plain_env fresh_state) = Return ()
  ∧ affectsConfiguration crons_event "syncSettings.crons" = true
  ∧ cron_runs (events (configurationChanged plain_env crons_event
                         (final (activate plain_env fresh_state)))) = 1.
Proof.
  split; [reflexivity|]. split; [reflexivity|].
  exact (proj2 (crons_rearmed_iff_affected plain_env fresh_state crons_event eq_refl)).
Defined.

(** ** Activation stops at a failing [setupCrons] *)

(** C6, as stated, fails: with a [setupCrons] that throws, activation
    does not complete. *)
Lemma cron_failure_is_not_survived : ¬ survives_cron_failure failing_crons_env fresh_state.
Proof.
  intros H. destruct (H schedule_failure eq_refl) as (_ & Hv & _).
  vm_compute in Hv. discriminate Hv.
Qed.

(** C6, amended: if [setupCrons()] fails during activation, [activate]
    rejects with that error and logs nothing; the thirteen commands, the
    commands view and the settings watcher registered before the call stay
    in place, the configuration-change listener is not installed and
    nothing is added to the subscriptions. *)
Theorem cron_failure_aborts_activation env s data e :
  Settings_load_result env = Return data →
  fresh_registry s →
  setupCrons_result env (cronCalls s) = Some e →
  value (activate env s) = Throw e
  ∧ existsb is_logger_error (events (activate env s)) = false
  ∧ Forall (λ r : string * Handler, commands (final (activate env s)) !! r.1 = Some r.2)
      registrations
  ∧ EvRegisterTreeDataProvider "syncSettingsCommands" CommandsViewProvider_commands
    ∈ events (activate env s)
  ∧ EvCreateFileSystemWatcher (settingsUri data +:+ "/..") "settings.yml"
    ∈ events (activate env s)
  ∧ changeListeners (final (activate env s)) = changeListeners s ++ [OnSettingsChange]
  ∧ configurationListeners (final (activate env s)) = configurationListeners s
  ∧ subscriptions (final (activate env s)) = subscriptions s.
Proof.
  intros Hload Hfresh Hcron.
  destruct (activate_registers env s data Hload Hfresh) as [_ Hcmd].
  assert (Hrun : activate env s =
    {| final := with_cronCalls (S (cronCalls s))
                  (with_changeListeners (λ l, l ++ [OnSettingsChange])
                     (with_fileChangesDelayer (Some (Delayer.create 200))
                        (with_commands (λ m, list_to_map registrations ∪ m)
                           (with_settings (Some data) (final (checkVersion env s))))));
       events := (EvSetKeysForSync [VERSION_KEY] :: events (checkVersion env s)) ++
                 EvSettingsLoad true
                 :: ((λ r, EvRegisterCommand r.1 r.2) <$> registrations) ++
                    [EvRegisterTreeDataProvider "syncSettingsCommands"
                       CommandsViewProvider_commands;
                     EvSettingsGet true;
                     EvCreateFileSystemWatcher (settingsUri data +:+ "/..") "settings.yml";
                     EvSetupCrons];
       value := Throw e |}).
  { rewrite activate_run. unfold activate_outcome.
    rewrite Hload, (registration_step env s data Hfresh). cbn [value final events].
    by rewrite Hcron. }
  rewrite Hrun. cbn [value final events]. split; [reflexivity|].
  split; [|split; [|split; [|split]]].
  - apply not_true_iff_false. intros (ev & Hin & Hev)%existsb_exists.
    apply list_elem_of_In in Hin. cbn [app] in Hin.
    apply elem_of_cons in Hin as [->|Hin]; [done|].
    apply elem_of_app in Hin as [Hin|Hin].
    { apply checkVersion_events in Hin. by subst ev. }
    apply elem_of_cons in Hin as [->|Hin]; [done|].
    apply elem_of_app in Hin as [Hin|Hin].
    { apply list_elem_of_fmap in Hin as (r & -> & _). done. }
    repeat (apply elem_of_cons in Hin as [->|Hin]; [done|]).
    by apply elem_of_nil in Hin.
  - rewrite Hrun in Hcmd. cbn [final] in Hcmd.
    apply Forall_forall. intros [id h] Hin. cbn [fst snd]. rewrite Hcmd.
    apply lookup_union_Some_l.
    apply elem_of_list_to_map_1; [apply registrations_NoDup|exact Hin].
  - apply elem_of_app. right. right. apply elem_of_app. right. left.
  - apply elem_of_app. right. right. apply elem_of_app. right. right. right. left.
  - destruct (checkVersion_frame env s) as [Hframe _]. unfold globalState_only in Hframe.
    cbn [with_cronCalls with_changeListeners with_fileChangesDelayer with_commands
         with_settings configurationListeners changeListeners subscriptions].
    rewrite Hframe. by cbn.
Qed.

Lemma cron_failure_aborts_activation_witness :
  Settings_load_result failing_crons_env = Return sample_settings
  ∧ fresh_registry fresh_state
  ∧ setupCrons_result failing_crons_env (cronCalls fresh_state) = Some schedule_failure
  ∧ value (activate failing_crons_env fresh_state) = Throw schedule_failure
  ∧ EvRegisterTreeDataProvider "syncSettingsCommands" CommandsViewProvider_commands
    ∈ events (activate failing_crons_env fresh_state)
  ∧ configurationListeners (final (activate failing_crons_env fresh_state)) = [].
Proof.
  assert (Hfresh : fresh_registry fresh_state)
    by (decide_closed).
  split; [reflexivity|]. split; [exact Hfresh|]. split; [reflexivity|].
  destruct (cron_failure_aborts_activation failing_crons_env fresh_state sample_settings
              schedule_failure eq_refl Hfresh eq_refl)
    as (Hv & _ & _ & Hview & _ & _ & Hl & _).
  split; [exact Hv|]. split; [exact Hview|exact Hl].
Defined.

(** ** Bursts of changes of [settings.yml] *)

Lemma reloads_app evs1 evs2 : reloads (evs1 ++ evs2) = reloads evs1 + reloads evs2.
Proof. unfold reloads. by rewrite List.filter_app, length_app. Qed.

Lemma reloadTask_reloads env s : reloads (events (reloadTask env s)) = 1.
Proof. rewrite reloadTask_run. by destruct (reload_result env (reloadCalls s)). Qed.

(** Before the timer expires nothing runs. *)
Lemma advance_not_due env s d t :
  fileChangesDelayer s = Some d →
  Delayer.due t d = false →
  advance env t s
  = {| final := with_clock (clock s `max` t) s; events := []; value := Return () |}.
Proof.
  intros Hd Hdue. unfold advance.
  rewrite (bind_Return get_state _ s s) by reflexivity.
  cbn [get_state final events]. by rewrite Hd, Hdue.
Qed.

(** A change re-arms the delayer one delay from now. *)
Lemma fileChanged_rearms s d :
  changeListeners s = [OnSettingsChange] →
  fileChangesDelayer s = Some d →
  fileChanged s
  = {| final := with_fileChangesDelayer (Some (Delayer.trigger ReloadTask (clock s) d)) s;
       events := []; value := Return () |}.
Proof.
  intros Hl Hd. unfold fileChanged.
  rewrite (bind_Return get_state _ s s) by reflexivity.
  cbn [get_state final events]. rewrite Hl. cbn [map sequence_ run_changeListener].
  unfold mbind, M_bind, settle, try_catch, onSettingsChange. rewrite Hd. reflexivity.
Qed.

(** One more change before the deadline: nothing runs, the deadline
    moves. *)
Lemma change_while_armed env s t :
  armed s → t < clock s + 200 →
  events ((advance env t ;; fileChanged) s) = []
  ∧ value ((advance env t ;; fileChanged) s) = Return ()
  ∧ armed (final ((advance env t ;; fileChanged) s))
  ∧ clock (final ((advance env t ;; fileChanged) s)) = clock s `max` t.
Proof.
  intros [Hl Hd] Ht.
  assert (Hrun : advance env t s
    = {| final := with_clock (clock s `max` t) s; events := []; value := Return () |}).
  { apply (advance_not_due env s _ t Hd). unfold Delayer.due. cbn [Delayer.timeout].
    apply Nat.leb_gt. lia. }
  rewrite (bind_Return (advance env t) _ s ()) by (by rewrite Hrun).
  rewrite Hrun. cbn [final events].
  erewrite fileChanged_rearms; [|exact Hl|cbn [with_clock fileChangesDelayer]; exact Hd].
  unfold after_events, armed.
  cbn [final events value app with_fileChangesDelayer with_clock changeListeners
       fileChangesDelayer clock Delayer.trigger Delayer.defaultDelay].
  by repeat split.
Qed.

Lemma burst_while_armed env ts : ∀ s lo hi,
  armed s → lo ≤ clock s + 200 → clock s ≤ hi →
  Forall (λ t, t < lo ∧ t ≤ hi) ts →
  events (burst env ts s) = []
  ∧ value (burst env ts s) = Return ()
  ∧ armed (final (burst env ts s))
  ∧ clock s ≤ clock (final (burst env ts s)) ≤ hi.
Proof.
  induction ts as [|t ts IH]; intros s lo hi Harmed Hlo Hhi Hts.
  - cbn [burst]. split; [done|]. split; [done|]. split; [exact Harmed|]. cbn. lia.
  - apply Forall_cons in Hts as [[Ht Hthi] Hts].
    destruct (change_while_armed env s t Harmed) as (Hev & Hv & Harmed' & Hclock); [lia|].
    cbn [burst]. rewrite <- (bind_assoc (advance env t) (λ _, fileChanged) (λ _, burst env ts)).
    rewrite (bind_Return (advance env t ;; fileChanged) _ s () Hv).
    unfold after_events. cbn [final events value].
    rewrite Hev. cbn [app].
    destruct (IH (final ((advance env t ;; fileChanged) s)) lo hi Harmed')
      as (Hev' & Hv' & Harmed'' & Hc); [lia|lia|done|].
    split; [done|]. split; [done|]. split; [exact Harmed''|]. lia.
Qed.

Lemma change_while_idle env s t :
  idle s →
  events ((advance env t ;; fileChanged) s) = []
  ∧ value ((advance env t ;; fileChanged) s) = Return ()
  ∧ armed (final ((advance env t ;; fileChanged) s))
  ∧ clock (final ((advance env t ;; fileChanged) s)) = clock s `max` t.
Proof.
  intros [Hl Hd].
  assert (Hrun : advance env t s
    = {| final := with_clock (clock s `max` t) s; events := []; value := Return () |})
    by (by apply (advance_not_due env s _ t Hd)).
  rewrite (bind_Return (advance env t) _ s ()) by (by rewrite Hrun).
  rewrite Hrun. cbn [final events].
  erewrite fileChanged_rearms; [|exact Hl|cbn [with_clock fileChangesDelayer]; exact Hd].
  unfold after_events, armed.
  cbn [final events value app with_fileChangesDelayer with_clock changeListeners
       fileChangesDelayer clock Delayer.trigger Delayer.create Delayer.defaultDelay].
  by repeat split.
Qed.

(** Once armed, the timer callback runs the reload once, and only when
    the deadline has passed. *)
Lemma advance_armed env s t :
  armed s →
  reloads (events (advance env t s)) = if clock s + 200 <=? t then 1 else 0.
Proof.
  intros [Hl Hd]. destruct (clock s + 200 <=? t) eqn:Hdue.
  - rewrite (advance_due env s _ t Hd); [|done|done]. cbv zeta. cbn [events].
    apply reloadTask_reloads.
  - by rewrite (advance_not_due env s _ t Hd).
Qed.

(** A burst on a freshly installed watcher: nothing runs during the
    burst, and the delayer ends armed at most [hi] after its start. *)
Lemma burst_while_idle env s t0 ts :
  idle s → clock s ≤ t0 →
  Forall (λ t, t < t0 + 200) ts →
  events (burst env (t0 :: ts) s) = []
  ∧ value (burst env (t0 :: ts) s) = Return ()
  ∧ armed (final (burst env (t0 :: ts) s))
  ∧ t0 ≤ clock (final (burst env (t0 :: ts) s)) < t0 + 200.
Proof.
  intros Hidle Hclock Hts.
  destruct (change_while_idle env s t0 Hidle) as (Hev & Hv & Harmed & Hc).
  cbn [burst]. rewrite <- (bind_assoc (advance env t0) (λ _, fileChanged) (λ _, burst env ts)).
  rewrite (bind_Return (advance env t0 ;; fileChanged) _ s () Hv).
  unfold after_events. cbn [final events value].
  rewrite Hev. cbn [app].
  destruct (burst_while_armed env ts (final ((advance env t0 ;; fileChanged) s))
              (t0 + 200) (t0 + 199) Harmed) as (Hev' & Hv' & Harmed' & Hc'); [lia|lia| |].
  { eapply Forall_impl; [exact Hts|]. intros t Ht. cbn beta in Ht. lia. }
  split; [done|]. split; [done|]. split; [exact Harmed'|]. lia.
Qed.

(** C1: a burst of change events on the watched [settings.yml], all
    within the 200 ms delay of the first, triggers exactly one invocation
    of [RepositoryFactory.reload()]: none while the burst lasts, one once
    the delay has passed, and never more than one. *)
Theorem burst_triggers_one_reload env s t0 ts T :
  value (activate env s) = Return () →
  changeListeners s = [] →
  clock s ≤ t0 →
  Forall (λ t, t < t0 + 200) ts →
  t0 + 400 ≤ T →
  reloads (events (burst env (t0 :: ts) (final (activate env s)))) = 0
  ∧ reloads (events ((burst env (t0 :: ts) ;; advance env T) (final (activate env s)))) = 1
  ∧ ∀ T', reloads (events ((burst env (t0 :: ts) ;; advance env T')
                             (final (activate env s)))) ≤ 1.
Proof.
  intros Hok Hnone Hclock Hts HT.
  destruct (activate_completed env s Hok) as (_ & Hl & Hd & Hc).
  assert (Hidle : idle (final (activate env s))).
  { split; [|exact Hd]. by rewrite Hl, Hnone. }
  destruct (burst_while_idle env (final (activate env s)) t0 ts Hidle) as
    (Hev & Hv & Harmed & Hlast); [lia|done|].
  split; [by rewrite Hev|].
  assert (Hthen : ∀ T', reloads (events ((burst env (t0 :: ts) ;; advance env T')
                                          (final (activate env s))))
            = if clock (final (burst env (t0 :: ts) (final (activate env s)))) + 200 <=? T'
              then 1 else 0).
  { intros T'. rewrite (bind_Return _ _ _ () Hv). unfold after_events. cbn [events].
    rewrite Hev. cbn [app]. by apply advance_armed. }
  split.
  - rewrite Hthen. rewrite (proj2 (Nat.leb_le _ _)); [done|lia].
  - intros T'. rewrite Hthen. destruct (_ <=? _); lia.
Qed.

Lemma burst_triggers_one_reload_witness :
  value (activate plain_env fresh_state) = Return ()
  ∧ Forall (λ t, t < 100 + 200) [130; 180; 299]
  ∧ reloads (events ((burst plain_env [100; 130; 180; 299] ;; advance plain_env 500)
                       (final (activate plain_env fresh_state)))) = 1.
Proof.
  assert (Hts : Forall (λ t, t < 100 + 200) [130; 180; 299])
    by (repeat constructor; lia).
  split; [reflexivity|]. split; [exact Hts|].
  assert (H0 : clock fresh_state ≤ 100) by (cbn; lia).
  assert (H1 : 100 + 400 ≤ 500) by lia.
  exact (proj1 (proj2 (burst_triggers_one_reload plain_env fresh_state 100
                         [130; 180; 299] 500 eq_refl eq_refl H0 Hts H1))).
Defined.

(** ** What the Diff Engine restores *)

Module DiffEngineFacts.
Import DiffEngine.

Section RoundTrip.
Context {Value : Type} `{EqDecision Value}.
Implicit Types (s b t : Snapshot Value) (c : Change Value) (p : Patch Value).















Lemma diff_sorted track b t : Sorted path_le (diff track b t).
Proof.
  assert (Htotal : Total (@path_le Value))
    by (intros c1 c2; unfold path_le; apply String.leb_total).
  apply (Sorted_merge_sort path_le).
Qed.





End RoundTrip.



(** No [apply] at all can restore the target exactly: the patch does not
    tell two captures of the same content apart. *)
Lemma no_apply_restores_timestamp
    (f : Snapshot string → Patch string → Result (Snapshot string)) track :
  ∃ b t, f b (diff track b t) ≠ Ok t.
Proof.
  assert (Hsame : diff track first_capture later_capture
                  = diff track first_capture first_capture)
    by (destruct track; vm_compute; reflexivity).
  destruct (f first_capture (diff track first_capture first_capture)) as [s|e] eqn:Hf.
  - destruct (decide (timestamp s = 1)) as [Hts|Hts].
    + exists first_capture, later_capture. rewrite Hsame, Hf. intros [= ->].
      revert Hts. vm_compute. discriminate.
    + exists first_capture, first_capture. rewrite Hf. intros [= ->].
      by apply Hts.
  - exists first_capture, first_capture. by rewrite Hf.
Qed.

(** The download scenario of the specification: local settings
    [{"theme":"dark"}], repository settings [{"theme":"light","font":"mono"}]. *)
Example download_scenario :
  apply {| timestamp := 5; documents := {[ "theme" := "dark" ]}; extensions := ∅ |}
        (diff false
           {| timestamp := 5; documents := {[ "theme" := "dark" ]}; extensions := ∅ |}
           {| timestamp := 5; documents := {[ "theme" := "light"; "font" := "mono" ]};
              extensions := ∅ |})
  = Ok {| timestamp := 5; documents := {[ "theme" := "light"; "font" := "mono" ]};
          extensions := ∅ |}.
Proof. vm_compute. reflexivity. Qed.

End DiffEngineFacts.

(** * Further properties of the entry point *)

(** ** The stored version *)

Lemma checkVersion_globalState env s :
  globalState (final (checkVersion env s)) !! VERSION_KEY = Some (pkg_version env)
  ∧ ∀ key, key ≠ VERSION_KEY →
      globalState (final (checkVersion env s)) !! key = globalState s !! key.
Proof.
  rewrite checkVersion_run.
  destruct (globalState s !! VERSION_KEY) as [previous|] eqn:Hprev;
    [case_bool_decide as Hsame|]; cbn [final with_globalState globalState].
  - subst previous. by split.
  - split; [apply lookup_insert_eq|]. intros key Hkey. by apply lookup_insert_ne.
  - split; [apply lookup_insert_eq|]. intros key Hkey. by apply lookup_insert_ne.
Qed.

(** No step after the version check writes to global state. *)
Lemma activate_globalState env s :
  globalState (final (activate env s)) = globalState (final (checkVersion env s)).
Proof.
  rewrite activate_run. unfold activate_outcome.
  set (o0 := checkVersion env s).
  destruct (Settings_load_result env) as [data|e]; [|reflexivity].
  pose proof (registerCommands_globalState registrations (with_settings (Some data) (final o0)))
    as Hg.
  set (o1 := registerCommands registrations (with_settings (Some data) (final o0))) in *.
  destruct (value o1) as [ds|e]; [destruct (setupCrons_result env (cronCalls s))|];
    cbn [final with_subscriptions with_configurationListeners with_cronCalls
         with_changeListeners with_fileChangesDelayer globalState];
    exact Hg.
Qed.

(** X1: after any run of [activate], completed or not, global state holds
    the current version under the version key, and every other key is as it
    was. *)
Theorem stored_version_is_current env s :
  globalState (final (activate env s)) !! VERSION_KEY = Some (pkg_version env)
  ∧ ∀ key, key ≠ VERSION_KEY →
      globalState (final (activate env s)) !! key = globalState s !! key.
Proof. rewrite activate_globalState. apply checkVersion_globalState. Qed.

Lemma stored_version_is_current_witness :
  "theme" ≠ VERSION_KEY
  ∧ globalState (final (activate plain_env (upgraded_from "0.9.0"))) !! "theme"
    = globalState (upgraded_from "0.9.0") !! "theme".
Proof.
  assert (Hkey : "theme" ≠ VERSION_KEY) by discriminate.
  split; [exact Hkey|].
  exact (proj2 (stored_version_is_current plain_env (upgraded_from "0.9.0")) "theme" Hkey).
Defined.


(** X3: with the notification option set to 'none', no run of [activate]
    shows the what's-new message, whatever versions are involved. *)
Theorem notification_none_is_silent env s :
  getConfiguration env "syncSettings" "notification" = Some "none" →
  shows_whatsNew (activate env s) = false.
Proof.
  intros Hnone. rewrite activate_shows. unfold shows_whatsNew.
  rewrite checkVersion_run, Hnone.
  destruct (globalState s !! VERSION_KEY); [case_bool_decide|]; reflexivity.
Qed.

Lemma notification_none_is_silent_witness :
  getConfiguration (sample_env "2.0.0" (Some "none") None None) "syncSettings" "notification"
  = Some "none"
  ∧ shows_whatsNew (activate (sample_env "2.0.0" (Some "none") None None)
                      (upgraded_from "1.0.0")) = false.
Proof.
  split; [reflexivity|].
  apply (notification_none_is_silent (sample_env "2.0.0" (Some "none") None None)
           (upgraded_from "1.0.0")).
  reflexivity.
Defined.

(** X4: when a stored version differs from the current one, by upgrade or
    by downgrade, and the notification option is unset or has any value
    other than 'major', 'minor' and 'none', the what's-new message is
    shown. *)
Theorem other_notification_always_shows env s previous :
  globalState s !! VERSION_KEY = Some previous →
  pkg_version env ≠ previous →
  getConfiguration env "syncSettings" "notification" ≠ Some "major" →
  getConfiguration env "syncSettings" "notification" ≠ Some "minor" →
  getConfiguration env "syncSettings" "notification" ≠ Some "none" →
  shows_whatsNew (activate env s) = true.
Proof.
  intros Hprev Hne Hmajor Hminor Hnone.
  rewrite (whatsNew_decision env s previous Hprev Hne).
  by apply notifies_otherwise.
Qed.

Lemma other_notification_always_shows_witness :
  globalState (upgraded_from "0.10.0") !! VERSION_KEY = Some "0.10.0"
  ∧ pkg_version (sample_env "0.9.0" None None None) ≠ "0.10.0"
  ∧ getConfiguration (sample_env "0.9.0" None None None) "syncSettings" "notification" = None
  ∧ shows_whatsNew (activate (sample_env "0.9.0" None None None) (upgraded_from "0.10.0"))
    = true.
Proof.
  assert (Hne : pkg_version (sample_env "0.9.0" None None None) ≠ "0.10.0") by discriminate.
  split; [reflexivity|]. split; [exact Hne|]. split; [reflexivity|].
  apply (other_notification_always_shows (sample_env "0.9.0" None None None)
           (upgraded_from "0.10.0") "0.10.0" eq_refl Hne); discriminate.
Defined.

(** ** Where the comparison of components is numeric *)

Lemma ascii_compare_nat a b : Ascii.compare a b = (nat_of_ascii a ?= nat_of_ascii b).
Proof. unfold Ascii.compare, nat_of_ascii. by rewrite N2Nat.inj_compare. Qed.

Lemma digit_Some c d : Numeric.digit c = Some d → nat_of_ascii c = 48 + d ∧ d < 10.
Proof.
  unfold Numeric.digit.
  destruct (48 <=? nat_of_ascii c) eqn:Hlo, (nat_of_ascii c <=? 57) eqn:Hhi;
    cbn [andb]; intros Hd; try discriminate Hd.
  injection Hd as <-. apply Nat.leb_le in Hlo, Hhi. lia.
Qed.

(** Reading with digits already read in front. *)
Lemma decimal_from_acc a : ∀ acc,
  Numeric.decimal_from acc a
  = (λ v, acc * 10 ^ String.length a + v) <$> Numeric.decimal_from 0 a.
Proof.
  induction a as [|c a IH]; intros acc.
  - cbn. f_equal. lia.
  - cbn [Numeric.decimal_from String.length]. destruct (Numeric.digit c) as [d|]; [|done].
    rewrite (IH (10 * acc + d)), (IH (10 * 0 + d)).
    destruct (Numeric.decimal_from 0 a) as [v|]; [|done].
    cbn [fmap option_fmap option_map]. f_equal. rewrite Nat.pow_succ_r'. lia.
Qed.

Lemma decimal_from_bound a : ∀ n,
  Numeric.decimal_from 0 a = Some n → n < 10 ^ String.length a.
Proof.
  induction a as [|c a IH]; intros n.
  - cbn. intros [= <-]. lia.
  - cbn [Numeric.decimal_from String.length].
    destruct (Numeric.digit c) as [d|] eqn:Hd; [|done].
    rewrite decimal_from_acc.
    destruct (Numeric.decimal_from 0 a) as [v|]; [|done].
    cbn [fmap option_fmap option_map]. intros [= <-].
    apply digit_Some in Hd as [_ Hd]. specialize (IH v eq_refl).
    rewrite Nat.pow_succ_r'. nia.
Qed.

(** On numerals with the same number of digits the lexicographic order
    is the order of the numbers. *)
Lemma compare_numerals a : ∀ b n m,
  Numeric.decimal_from 0 a = Some n →
  Numeric.decimal_from 0 b = Some m →
  String.length a = String.length b →
  String.compare a b = (n ?= m).
Proof.
  induction a as [|c1 a IH]; intros [|c2 b] n m; cbn [String.length]; try done.
  - cbn. by intros [= <-] [= <-] _.
  - cbn [Numeric.decimal_from String.compare].
    destruct (Numeric.digit c1) as [d1|] eqn:Hd1; [|done].
    destruct (Numeric.digit c2) as [d2|] eqn:Hd2; [|done].
    rewrite (decimal_from_acc a), (decimal_from_acc b).
    destruct (Numeric.decimal_from 0 a) as [v1|] eqn:Hv1; [|done].
    destruct (Numeric.decimal_from 0 b) as [v2|] eqn:Hv2; [|done].
    cbn [fmap option_fmap option_map]. intros [= <-] [= <-] Hlen.
    injection Hlen as Hlen. rewrite <- Hlen.
    pose proof (decimal_from_bound a v1 Hv1) as Hb1.
    pose proof (decimal_from_bound b v2 Hv2) as Hb2. rewrite <- Hlen in Hb2.
    apply digit_Some in Hd1 as [Hc1 _]. apply digit_Some in Hd2 as [Hc2 _].
    rewrite ascii_compare_nat, Hc1, Hc2.
    set (P := 10 ^ String.length a) in *.
    destruct (Nat.compare_spec (48 + d1) (48 + d2)) as [Heq|Hlt|Hgt]; symmetry.
    + assert (d1 = d2) as -> by lia. rewrite (IH b v1 v2 eq_refl Hv2 Hlen).
      destruct (Nat.compare_spec v1 v2);
        [apply Nat.compare_eq_iff|apply Nat.compare_lt_iff|apply Nat.compare_gt_iff]; nia.
    + apply Nat.compare_lt_iff. nia.
    + apply Nat.compare_gt_iff. nia.
Qed.

Lemma decimal_decimal_from a n : Numeric.decimal a = Some n → Numeric.decimal_from 0 a = Some n.
Proof. by destruct a. Qed.

Lemma gt_numerals a b n m :
  Numeric.decimal a = Some n → Numeric.decimal b = Some m →
  String.length a = String.length b →
  JS.gt (Some b) (Some a) = (n <? m)
  ∧ JS.strict_eq (Some b) (Some a) = (n =? m).
Proof.
  intros Ha%decimal_decimal_from Hb%decimal_decimal_from Hlen.
  pose proof (compare_numerals a b n m Ha Hb Hlen) as Hcmp.
  unfold JS.gt, JS.strict_eq, String.ltb. rewrite Hcmp. split.
  - destruct (Nat.compare_spec n m); symmetry;
      [apply Nat.ltb_ge|apply Nat.ltb_lt|apply Nat.ltb_ge]; lia.
  - destruct (decide (b = a)) as [->|Hne].
    + rewrite bool_decide_eq_true_2 by done. symmetry. apply Nat.eqb_eq. congruence.
    + rewrite bool_decide_eq_false_2 by congruence. symmetry. apply Nat.eqb_neq.
      intros ->. rewrite Nat.compare_refl in Hcmp.
      apply String.compare_eq_iff in Hcmp. congruence.
Qed.

Lemma same_width_numeric i previous current :
  same_width i previous current →
  JS.gt (part i current) (part i previous) = Numeric.increased i previous current
  ∧ JS.strict_eq (part i current) (part i previous) = Numeric.same i previous current.
Proof.
  intros (a & b & Ha & Hb & [n Hn] & [m Hm] & Hlen).
  unfold Numeric.increased, Numeric.same, Numeric.component.
  change (JS.index (JS.split "." ?v) i) with (part i v).
  rewrite Ha, Hb. cbn [mbind option_bind]. rewrite Hn, Hm.
  by apply gt_numerals.
Qed.

(** X5: when a stored version differs from the current one and the major
    components of the two are numerals with the same number of digits
    (and, under 'minor', the minor components too), the what's-new message
    is shown exactly as the notification rule read on numbers prescribes. *)
Theorem same_width_versions_follow_numeric_rule env s previous :
  globalState s !! VERSION_KEY = Some previous →
  pkg_version env ≠ previous →
  same_width 0 previous (pkg_version env) →
  (getConfiguration env "syncSettings" "notification" = Some "minor" →
   same_width 1 previous (pkg_version env)) →
  shows_whatsNew (activate env s)
  = expected_whatsNew (getConfiguration env "syncSettings" "notification")
      previous (pkg_version env).
Proof.
  intros Hprev Hne Hmajor Hminor.
  rewrite (whatsNew_decision env s previous Hprev Hne).
  destruct (same_width_numeric 0 previous (pkg_version env) Hmajor) as [Hgt0 Heq0].
  unfold notifies, expected_whatsNew, JS.strict_eq at 1 2 4.
  destruct (decide (getConfiguration env "syncSettings" "notification" = Some "major"))
    as [Hn|Hn1].
  { rewrite Hn. cbn. exact Hgt0. }
  rewrite (bool_decide_eq_false_2 _ Hn1).
  destruct (decide (getConfiguration env "syncSettings" "notification" = Some "minor"))
    as [Hn|Hn2].
  { destruct (same_width_numeric 1 previous (pkg_version env) (Hminor Hn)) as [Hgt1 _].
    rewrite Hn. cbn [bool_decide decide_rel]. rewrite Hgt0, Heq0, Hgt1. reflexivity. }
  rewrite (bool_decide_eq_false_2 _ Hn2).
  by case_bool_decide.
Qed.

Lemma same_width_versions_follow_numeric_rule_witness :
  globalState (upgraded_from "1.09.3") !! VERSION_KEY = Some "1.09.3"
  ∧ pkg_version (sample_env "1.10.0" (Some "minor") None None) ≠ "1.09.3"
  ∧ same_width 0 "1.09.3" "1.10.0"
  ∧ same_width 1 "1.09.3" "1.10.0"
  ∧ shows_whatsNew (activate (sample_env "1.10.0" (Some "minor") None None)
                      (upgraded_from "1.09.3")) = true.
Proof.
  assert (Hne : pkg_version (sample_env "1.10.0" (Some "minor") None None) ≠ "1.09.3")
    by discriminate.
  assert (H0 : same_width 0 "1.09.3" "1.10.0").
  { exists "1", "1". repeat split; try reflexivity; by eexists. }
  assert (H1 : same_width 1 "1.09.3" "1.10.0").
  { exists "09", "10". repeat split; try reflexivity; by eexists. }
  split; [reflexivity|]. split; [exact Hne|]. split; [exact H0|]. split; [exact H1|].
  exact (same_width_versions_follow_numeric_rule
           (sample_env "1.10.0" (Some "minor") None None) (upgraded_from "1.09.3")
           "1.09.3" eq_refl Hne H0 (λ _, H1)).
Defined.

(** ** Versions with a component missing *)

Lemma ltb_irrefl a : String.ltb a a = false.
Proof.
  unfold String.ltb. pose proof (String.compare_antisym a a) as H.
  by destruct (String.compare a a).
Qed.

(** X6: under 'minor', when the major components are the same text and
    either version has no second component ([split('.')[1]] is
    [undefined]), no what's-new message is shown. *)
Theorem minor_needs_both_components env s previous :
  globalState s !! VERSION_KEY = Some previous →
  getConfiguration env "syncSettings" "notification" = Some "minor" →
  part 0 (pkg_version env) = part 0 previous →
  part 1 previous = None ∨ part 1 (pkg_version env) = None →
  shows_whatsNew (activate env s) = false.
Proof.
  intros Hprev Hminor Hmajor Hmissing.
  destruct (decide (pkg_version env = previous)) as [Hsame|Hne].
  { apply whatsNew_same_version. by rewrite Hsame. }
  rewrite (whatsNew_decision env s previous Hprev Hne), Hminor.
  unfold notifies, JS.strict_eq at 1 2. cbn [bool_decide decide_rel].
  rewrite (bool_decide_eq_false_2 (Some "minor" = Some "major")) by discriminate.
  rewrite (bool_decide_eq_true_2 (Some "minor" = Some "minor")) by done.
  rewrite Hmajor.
  assert (Hgt0 : JS.gt (part 0 previous) (part 0 previous) = false).
  { unfold JS.gt. destruct (part 0 previous); [apply ltb_irrefl|done]. }
  assert (Hgt1 : JS.gt (part 1 (pkg_version env)) (part 1 previous) = false).
  { unfold JS.gt. destruct Hmissing as [-> | ->]; [by destruct (part 1 _)|done]. }
  rewrite Hgt0, Hgt1. cbn [orb]. apply andb_false_r.
Qed.

Lemma minor_needs_both_components_witness :
  globalState (upgraded_from "3") !! VERSION_KEY = Some "3"
  ∧ part 0 "3.1.0" = part 0 "3"
  ∧ part 1 "3" = None
  ∧ shows_whatsNew (activate (sample_env "3.1.0" (Some "minor") None None)
                      (upgraded_from "3")) = false.
Proof.
  split; [reflexivity|]. split; [reflexivity|]. split; [reflexivity|].
  apply (minor_needs_both_components (sample_env "3.1.0" (Some "minor") None None)
           (upgraded_from "3") "3" eq_refl eq_refl eq_refl).
  left. reflexivity.
Defined.

(** ** Activation that stops early *)

(** X7: when [Settings.load] fails, [activate] rejects with the same
    error having registered nothing: no command, no commands view, no
    listener, no subscription, no call to [setupCrons]; the version check
    that precedes the load has still been made. *)
Theorem load_failure_registers_nothing env s e :
  Settings_load_result env = Throw e →
  value (activate env s) = Throw e
  ∧ registered (events (activate env s)) = []
  ∧ existsb is_tree_provider (events (activate env s)) = false
  ∧ cron_runs (events (activate env s)) = 0
  ∧ commands (final (activate env s)) = commands s
  ∧ changeListeners (final (activate env s)) = changeListeners s
  ∧ configurationListeners (final (activate env s)) = configurationListeners s
  ∧ subscriptions (final (activate env s)) = subscriptions s
  ∧ globalState (final (activate env s)) !! VERSION_KEY = Some (pkg_version env).
Proof.
  intros Hload.
  assert (Hversion : globalState (final (activate env s)) !! VERSION_KEY
                     = Some (pkg_version env))
    by (rewrite activate_globalState; apply checkVersion_globalState).
  revert Hversion. rewrite activate_run. unfold activate_outcome. rewrite Hload.
  cbn [value final events]. intros Hversion.
  destruct (checkVersion_frame env s) as [Hframe _]. unfold globalState_only in Hframe.
  pose proof (registered_checkVersion env s) as Hreg.
  assert (Hev : events (checkVersion env s) = []
                ∨ events (checkVersion env s)
                  = [EvShowInformationMessage (whatsNew_text (pkg_version env))
                       whatsNew_actions]).
  { rewrite checkVersion_run.
    destruct (globalState s !! VERSION_KEY); [case_bool_decide|]; cbn [events]; auto.
    destruct (notifies _ _ _); auto. }
  split; [reflexivity|].
  split; [rewrite registered_app, registered_cons, Hreg; reflexivity|].
  split; [destruct Hev as [-> | ->]; reflexivity|].
  split; [destruct Hev as [-> | ->]; reflexivity|].
  rewrite Hframe. cbn [with_globalState commands changeListeners configurationListeners
                       subscriptions].
  repeat (split; [reflexivity|]). rewrite Hframe in Hversion. exact Hversion.
Qed.

Lemma load_failure_registers_nothing_witness :
  Settings_load_result failing_load_env = Throw load_failure
  ∧ value (activate failing_load_env (upgraded_from "0.9.0")) = Throw load_failure
  ∧ commands (final (activate failing_load_env (upgraded_from "0.9.0"))) = ∅.
Proof.
  split; [reflexivity|].
  destruct (load_failure_registers_nothing failing_load_env (upgraded_from "0.9.0")
              load_failure eq_refl) as (Hv & _ & _ & _ & Hc & _).
  split; [exact Hv|exact Hc].
Defined.

(** ** What a completed registration holds *)

(** One registration, then the rest. *)
Lemma registerCommands_cons j hj l s :
  registerCommands ((j, hj) :: l) s =
  match commands s !! j with
  | Some _ => {| final := s; events := []; value := Throw (CommandAlreadyExists j) |}
  | None =>
      {| final := final (registerCommands l (with_commands <[j:=hj]> s));
         events := EvRegisterCommand j hj
                   :: events (registerCommands l (with_commands <[j:=hj]> s));
         value := match value (registerCommands l (with_commands <[j:=hj]> s)) with
                  | Return ds => Return (CommandRegistration j :: ds)
                  | Throw e => Throw e
                  end |}
  end.
Proof.
  cbn [registerCommands]. unfold mbind, M_bind, registerCommand.
  destruct (commands s !! j); cbn [value final events]; [reflexivity|].
  destruct (registerCommands l (with_commands <[j:=hj]> s)) as [f evs [ds|e]];
    unfold after_events, mret, M_ret; cbn [value final events app];
    rewrite ?app_nil_r; reflexivity.
Qed.

(** Once an identifier is bound, a run of [registerCommands] that
    completes has left it alone. *)
Lemma registerCommands_keeps l : ∀ s id h ds,
  commands s !! id = Some h →
  value (registerCommands l s) = Return ds →
  commands (final (registerCommands l s)) !! id = Some h.
Proof.
  induction l as [|[j hj] l IH]; intros s id h ds Hid; [done|].
  rewrite registerCommands_cons.
  destruct (commands s !! j) as [taken|] eqn:Hj; cbn [value final]; [done|].
  destruct (value (registerCommands l (with_commands <[j:=hj]> s))) as [ds'|e] eqn:Hv;
    [|done].
  intros _. apply (IH _ id h ds'); [|exact Hv].
  cbn [with_commands commands]. rewrite lookup_insert_ne; [done|]. congruence.
Qed.

(** A run of [registerCommands] that completes has bound every
    identifier of its list to its handler and returns their disposables
    in order. *)
Lemma registerCommands_returns l : ∀ s ds,
  value (registerCommands l s) = Return ds →
  ds = CommandRegistration <$> l.*1
  ∧ ∀ id h, (id, h) ∈ l → commands (final (registerCommands l s)) !! id = Some h.
Proof.
  induction l as [|[j hj] l IH]; intros s ds.
  - cbn. intros [= <-]. split; [done|]. intros id h Hin. by apply elem_of_nil in Hin.
  - rewrite registerCommands_cons.
    destruct (commands s !! j) as [taken|] eqn:Hj; cbn [value final]; [done|].
    destruct (value (registerCommands l (with_commands <[j:=hj]> s))) as [ds'|e] eqn:Hv;
      [|done].
    intros [= <-]. destruct (IH _ ds' Hv) as [-> Hbound]. split; [done|].
    intros id h [[= -> ->]|Hin]%elem_of_cons; [|by apply Hbound].
    eapply (registerCommands_keeps l (with_commands <[j:=hj]> s) j hj); [|exact Hv].
    cbn [with_commands commands]. apply lookup_insert_eq.
Qed.

Lemma checkVersion_quiet (p : Event → bool) env s :
  (∀ message actions, p (EvShowInformationMessage message actions) = false) →
  existsb p (events (checkVersion env s)) = false.
Proof.
  intros Hp. apply not_true_iff_false. intros (ev & Hin & Hev)%existsb_exists.
  apply list_elem_of_In, checkVersion_events in Hin. subst ev. by rewrite Hp in Hev.
Qed.

(** X8: a completed activation adds to [context.subscriptions] exactly
    fourteen disposables, after those already there: the thirteen command
    registrations in the order of the calls, then the commands view. *)
Theorem completed_activation_subscribes env s :
  value (activate env s) = Return () →
  subscriptions (final (activate env s))
  = subscriptions s ++ (CommandRegistration <$> registrations.*1)
      ++ [TreeDataProviderRegistration "syncSettingsCommands"]
  ∧ length (subscriptions (final (activate env s))) = length (subscriptions s) + 14.
Proof.
  rewrite activate_run. unfold activate_outcome.
  destruct (checkVersion_frame env s) as [Hframe0 _]. unfold globalState_only in Hframe0.
  set (o0 := checkVersion env s) in *.
  destruct (Settings_load_result env) as [data|e]; [|done].
  pose proof (registerCommands_frame registrations (with_settings (Some data) (final o0)))
    as Hframe1.
  pose proof (registerCommands_returns registrations (with_settings (Some data) (final o0)))
    as Hret.
  set (o1 := registerCommands registrations (with_settings (Some data) (final o0))) in *.
  destruct (value o1) as [ds|e]; [|done].
  destruct (Hret ds eq_refl) as [-> _].
  destruct (setupCrons_result env (cronCalls s)) as [e|]; [done|].
  intros _. cbn [final with_subscriptions subscriptions with_configurationListeners
                 with_cronCalls with_changeListeners with_fileChangesDelayer].
  unfold commands_only in Hframe1. rewrite Hframe1.
  cbn [with_commands with_settings subscriptions]. rewrite Hframe0.
  cbn [with_globalState subscriptions].
  split; [reflexivity|]. rewrite !length_app. reflexivity.
Qed.

Lemma completed_activation_subscribes_witness :
  value (activate plain_env fresh_state) = Return ()
  ∧ length (subscriptions (final (activate plain_env fresh_state))) = 14.
Proof.
  split; [reflexivity|].
  exact (proj2 (completed_activation_subscribes plain_env fresh_state eq_refl)).
Defined.

(** X9: in every run of [activate] that registers the commands view,
    every item the view offers yields a tree item whose command is bound
    in the host, to the handler [activate] registered under that
    identifier. *)
Theorem commands_view_items_are_bound env s :
  existsb is_tree_provider (events (activate env s)) = true →
  Forall (λ item, ∃ h, (command item, h) ∈ registrations
                       ∧ commands (final (activate env s))
                           !! item_command (getTreeItem item) = Some h)
    getChildren.
Proof.
  rewrite activate_run. unfold activate_outcome.
  pose proof (checkVersion_quiet is_tree_provider env s (λ _ _, eq_refl)) as Hq0.
  set (o0 := checkVersion env s) in *.
  destruct (Settings_load_result env) as [data|e].
  2:{ cbn [events]. rewrite existsb_app. cbn [app existsb is_tree_provider orb].
      by rewrite Hq0. }
  pose proof (registerCommands_quiet is_tree_provider registrations
                (with_settings (Some data) (final o0)) (λ _ _, eq_refl)) as Hq1.
  pose proof (registerCommands_returns registrations (with_settings (Some data) (final o0)))
    as Hret.
  set (o1 := registerCommands registrations (with_settings (Some data) (final o0))) in *.
  destruct (value o1) as [ds|e].
  2:{ cbn [events]. rewrite existsb_app. cbn [app existsb is_tree_provider orb].
      by rewrite Hq0, Hq1. }
  destruct (Hret ds eq_refl) as [_ Hbound]. intros _.
  assert (Hcmd : ∀ o : Outcome (),
            commands (final o) = commands (final o1) →
            Forall (λ item, ∃ h, (command item, h) ∈ registrations
                                 ∧ commands (final o) !! item_command (getTreeItem item)
                                   = Some h) getChildren).
  { intros o ->. apply Forall_forall. intros item Hitem.
    assert (Hlisted : Forall (λ item, command item ∈ registrations.*1) getChildren)
      by decide_closed.
    rewrite Forall_forall in Hlisted.
    apply Hlisted, list_elem_of_fmap in Hitem as ([id h] & Hid & Hin).
    cbn [fst] in Hid. exists h. cbn [getTreeItem item_command]. rewrite Hid.
    split; [exact Hin|by apply Hbound]. }
  destruct (setupCrons_result env (cronCalls s)); apply Hcmd; reflexivity.
Qed.

Lemma commands_view_items_are_bound_witness :
  existsb is_tree_provider (events (activate failing_crons_env fresh_state)) = true
  ∧ Forall (λ item, ∃ h, (command item, h) ∈ registrations
                         ∧ commands (final (activate failing_crons_env fresh_state))
                             !! item_command (getTreeItem item) = Some h)
      getChildren.
Proof.
  split; [reflexivity|].
  exact (commands_view_items_are_bound failing_crons_env fresh_state eq_refl).
Defined.

(** ** Sequences of configuration changes *)

(** Dispatching a configuration change leaves the listeners installed
    and never fails. *)
Lemma dispatch_configuration_frame env event ls : ∀ s,
  configurationListeners
    (final (sequence_ (map (λ l, settle (run_configurationListener env event l)) ls) s))
  = configurationListeners s.
Proof.
  induction ls as [|l ls IH]; intros s; cbn [map sequence_]; [reflexivity|].
  destruct (settle_configurationListener env event l s) as [Hv _].
  rewrite (bind_Return _ _ s () Hv). unfold after_events. cbn [final]. rewrite IH.
  destruct l. unfold settle, try_catch, run_configurationListener, onConfigurationChange.
  destruct (affectsConfiguration event "syncSettings.crons"); [|reflexivity].
  unfold setupCrons. cbn [value final events].
  destruct (setupCrons_result env (cronCalls s)); reflexivity.
Qed.

Lemma configurationChanged_frame env event s :
  value (configurationChanged env event s) = Return ()
  ∧ configurationListeners (final (configurationChanged env event s))
    = configurationListeners s.
Proof.
  unfold configurationChanged.
  rewrite (bind_Return get_state _ s s) by reflexivity.
  unfold after_events. cbn [get_state final events value]. split.
  - apply dispatch_configuration.
  - apply dispatch_configuration_frame.
Qed.

Lemma configurationEvents_runs env evl : ∀ s,
  cron_runs (events (configurationEvents env evl s))
  = affecting evl * length (configurationListeners s).
Proof.
  induction evl as [|event evl IH]; intros s; [reflexivity|].
  cbn [configurationEvents].
  destruct (configurationChanged_frame env event s) as [Hv Hl].
  rewrite (bind_Return _ _ s () Hv). unfold after_events. cbn [events].
  rewrite cron_runs_app, configurationChanged_runs, IH, Hl.
  unfold affecting. cbn [List.filter].
  destruct (affectsConfiguration event "syncSettings.crons"); cbn [length]; lia.
Qed.

(** X10: over any sequence of configuration-change events after a
    completed activation, [setupCrons] is invoked once for each event that
    affects [syncSettings.crons] and never for another, also after
    invocations that failed: a failure does not remove the listener. *)
Theorem crons_rearmed_for_each_affecting_event env s evl :
  value (activate env s) = Return () →
  configurationListeners s = [] →
  cron_runs (events (configurationEvents env evl (final (activate env s))))
  = affecting evl.
Proof.
  intros Hok Hnone. destruct (activate_completed env s Hok) as (Hl & _).
  rewrite configurationEvents_runs, Hl, Hnone. cbn [app length]. lia.
Qed.

Lemma crons_rearmed_for_each_affecting_event_witness :
  value (activate late_failing_crons_env fresh_state) = Return ()
  ∧ setupCrons_result late_failing_crons_env 1 = Some schedule_failure
  ∧ cron_runs (events (configurationEvents late_failing_crons_env
                         [crons_event; font_event; crons_event]
                         (final (activate late_failing_crons_env fresh_state)))) = 2.
Proof.
  split; [reflexivity|]. split; [reflexivity|].
  exact (crons_rearmed_for_each_affecting_event late_failing_crons_env fresh_state
           [crons_event; font_event; crons_event] eq_refl eq_refl).
Defined.

(** ** An identifier that is already taken *)

(** With an identifier taken, the calls before the first taken one
    register, and that one throws. *)
Lemma registerCommands_taken l : ∀ s,
  NoDup l.*1 →
  ¬ Forall (λ r : string * Handler, commands s !! r.1 = None) l →
  ∃ before id h after,
    l = before ++ (id, h) :: after
    ∧ Forall (λ r : string * Handler, commands s !! r.1 = None) before
    ∧ is_Some (commands s !! id)
    ∧ value (registerCommands l s) = Throw (CommandAlreadyExists id)
    ∧ registered (events (registerCommands l s)) = before
    ∧ final (registerCommands l s)
      = with_commands (λ _, commands (final (registerCommands l s))) s.
Proof.
  induction l as [|[j hj] l IH]; intros s Hnd Htaken.
  - by destruct Htaken.
  - rewrite fmap_cons in Hnd. apply NoDup_cons in Hnd as [Hj Hnd].
    rewrite registerCommands_cons.
    destruct (commands s !! j) as [taken|] eqn:Hlookup.
    + exists [], j, hj, l. cbn [value final events app].
      split; [done|]. split; [done|]. split; [by rewrite Hlookup|].
      split; [done|]. split; [done|]. by destruct s.
    + destruct (IH (with_commands <[j:=hj]> s) Hnd)
        as (before & id & h & after & -> & Hbefore & Hsome & Hv & Hreg & Hf).
      { intros Hall. apply Htaken. apply Forall_cons. split; [exact Hlookup|].
        rewrite Forall_forall in Hall. apply Forall_forall. intros [i hi] Hi.
        specialize (Hall (i, hi) Hi). cbn [fst with_commands commands] in *.
        rewrite lookup_insert_ne in Hall; [done|].
        intros ->. apply Hj. apply list_elem_of_fmap. by exists (i, hi). }
      assert (Hother : ∀ i, commands (with_commands <[j:=hj]> s) !! i = None →
                            commands s !! i = None).
      { intros i. cbn [with_commands commands].
        destruct (decide (j = i)) as [->|Hne];
          [by rewrite lookup_insert_eq|by rewrite lookup_insert_ne]. }
      assert (Hne : j ≠ id).
      { intros ->. apply Hj. apply list_elem_of_fmap. exists (id, h).
        split; [done|]. apply elem_of_app. right. left. }
      exists ((j, hj) :: before), id, h, after. cbn [value final events].
      split; [done|]. split.
      { apply Forall_cons. split; [exact Hlookup|].
        eapply Forall_impl; [exact Hbefore|]. intros r Hr. by apply Hother. }
      cbn [with_commands commands] in Hsome. rewrite lookup_insert_ne in Hsome by done.
      split; [done|]. rewrite Hv. split; [done|]. split.
      { rewrite registered_cons, Hreg. reflexivity. }
      rewrite Hf at 1. reflexivity.
Qed.

(** X11: when one of the thirteen identifiers is already registered in
    the host, [activate] rejects with the host's error for the first such
    identifier in the order of the calls, having registered the commands
    before it; it has then not read the settings, installed no listener,
    added no subscription and not called [setupCrons]. *)
Theorem taken_identifier_aborts_activation env s data :
  Settings_load_result env = Return data →
  ¬ fresh_registry s →
  ∃ before id h after,
    registrations = before ++ (id, h) :: after
    ∧ Forall (λ r : string * Handler, commands s !! r.1 = None) before
    ∧ is_Some (commands s !! id)
    ∧ value (activate env s) = Throw (CommandAlreadyExists id)
    ∧ registered (events (activate env s)) = before
    ∧ existsb is_settings_get (events (activate env s)) = false
    ∧ cron_runs (events (activate env s)) = 0
    ∧ changeListeners (final (activate env s)) = changeListeners s
    ∧ configurationListeners (final (activate env s)) = configurationListeners s
    ∧ subscriptions (final (activate env s)) = subscriptions s.
Proof.
  intros Hload Htaken. rewrite activate_run. unfold activate_outcome. rewrite Hload.
  destruct (checkVersion_frame env s) as [Hframe0 _]. unfold globalState_only in Hframe0.
  pose proof (checkVersion_quiet is_settings_get env s (λ _ _, eq_refl)) as Hget0.
  pose proof (checkVersion_quiet is_setupCrons env s (λ _ _, eq_refl)) as Hcron0.
  pose proof (registered_checkVersion env s) as Hreg0.
  set (o0 := checkVersion env s) in *.
  assert (Hc0 : commands (with_settings (Some data) (final o0)) = commands s).
  { cbn [with_settings commands]. by rewrite Hframe0. }
  destruct (registerCommands_taken registrations (with_settings (Some data) (final o0))
              registrations_NoDup)
    as (before & id & h & after & Hsplit & Hbefore & Hsome & Hv & Hreg & Hf).
  { rewrite Hc0. exact Htaken. }
  rewrite Hc0 in Hbefore, Hsome.
  pose proof (registerCommands_quiet is_settings_get registrations
                (with_settings (Some data) (final o0)) (λ _ _, eq_refl)) as Hget1.
  pose proof (registerCommands_quiet is_setupCrons registrations
                (with_settings (Some data) (final o0)) (λ _ _, eq_refl)) as Hcron1.
  set (o1 := registerCommands registrations (with_settings (Some data) (final o0))) in *.
  exists before, id, h, after. rewrite Hv. cbn [value final events].
  split; [exact Hsplit|]. split; [exact Hbefore|]. split; [exact Hsome|].
  split; [reflexivity|]. split.
  { rewrite registered_app, registered_cons, Hreg0, (registered_cons (EvSettingsLoad true)),
      Hreg. reflexivity. }
  split.
  { rewrite existsb_app. cbn [existsb is_settings_get orb]. by rewrite Hget0, Hget1. }
  split.
  { unfold cron_runs. rewrite List.filter_app. cbn [List.filter is_setupCrons].
    assert (Hnone : ∀ evs, existsb is_setupCrons evs = false →
                           List.filter is_setupCrons evs = []).
    { induction evs as [|ev evs IH]; [done|]. cbn [existsb List.filter].
      intros [-> Hrest]%orb_false_iff. by apply IH. }
    by rewrite (Hnone _ Hcron0), (Hnone _ Hcron1). }
  rewrite Hf. cbn [with_commands with_settings changeListeners configurationListeners
                   subscriptions].
  rewrite Hframe0. by cbn.
Qed.

Lemma taken_identifier_aborts_activation_witness :
  Settings_load_result plain_env = Return sample_settings
  ∧ ¬ fresh_registry crowded_state
  ∧ ∃ before id h after,
      registrations = before ++ (id, h) :: after
      ∧ Forall (λ r : string * Handler, commands crowded_state !! r.1 = None) before
      ∧ is_Some (commands crowded_state !! id)
      ∧ value (activate plain_env crowded_state) = Throw (CommandAlreadyExists id).
Proof.
  assert (Htaken : ¬ fresh_registry crowded_state) by decide_closed.
  split; [reflexivity|]. split; [exact Htaken|].
  destruct (taken_identifier_aborts_activation plain_env crowded_state sample_settings
              eq_refl Htaken) as (before & id & h & after & Hsplit & Hfree & Hsome & Hv & _).
  exists before, id, h, after. by repeat split.
Defined.

(** ** What activation never does *)

(** X12: whatever fails during activation, [activate] itself reports
    nothing: no run of it logs an error or shows an error notification,
    and none calls [RepositoryFactory.reload]; a failure is only the error
    it rejects with. *)
Theorem activation_reports_no_error env s :
  existsb is_error_report (events (activate env s)) = false
  ∧ reloads (events (activate env s)) = 0.
Proof.
  rewrite activate_run. unfold activate_outcome, reloads.
  assert (Hnone : ∀ evs, existsb is_reload evs = false → List.filter is_reload evs = []).
  { induction evs as [|ev evs IH]; [done|]. cbn [existsb List.filter].
    intros [-> Hrest]%orb_false_iff. by apply IH. }
  pose proof (checkVersion_quiet is_error_report env s (λ _ _, eq_refl)) as He0.
  pose proof (Hnone _ (checkVersion_quiet is_reload env s (λ _ _, eq_refl))) as Hr0.
  set (o0 := checkVersion env s) in *.
  destruct (Settings_load_result env) as [data|e].
  2:{ cbn [events]. rewrite existsb_app, List.filter_app.
      cbn [app existsb List.filter is_error_report is_reload orb]. by rewrite He0, Hr0. }
  pose proof (registerCommands_quiet is_error_report registrations
                (with_settings (Some data) (final o0)) (λ _ _, eq_refl)) as He1.
  pose proof (Hnone _ (registerCommands_quiet is_reload registrations
                (with_settings (Some data) (final o0)) (λ _ _, eq_refl))) as Hr1.
  set (o1 := registerCommands registrations (with_settings (Some data) (final o0))) in *.
  destruct (value o1) as [ds|e]; [destruct (setupCrons_result env (cronCalls s))|];
    cbn [events]; rewrite existsb_app, List.filter_app;
    cbn [app existsb List.filter is_error_report is_reload orb];
    rewrite ?existsb_app, ?List.filter_app, He0, Hr0, ?He1, ?Hr1; by cbn.
Qed.

(** ** The notification levels nest *)

Lemma shows_checkVersion env s :
  shows_whatsNew (activate env s)
  = match globalState s !! VERSION_KEY with
    | Some previous =>
        negb (bool_decide (pkg_version env = previous))
        && notifies (getConfiguration env "syncSettings" "notification")
             previous (pkg_version env)
    | None => false
    end.
Proof.
  rewrite activate_shows. unfold shows_whatsNew. rewrite checkVersion_run.
  destruct (globalState s !! VERSION_KEY) as [previous|]; [|reflexivity].
  case_bool_decide; [reflexivity|]. cbn [events negb andb].
  by destruct (notifies _ _ _).
Qed.

(** X13: on the same host and for the same version, whenever the message
    is shown under 'major' it is shown under 'minor', and whenever it is
    shown under 'minor' it is shown under every value other than 'major',
    'minor' and 'none' (such as 'all', or the option left unset). *)
Theorem notification_levels_nest env_major env_minor env_all s :
  pkg_version env_minor = pkg_version env_major →
  pkg_version env_all = pkg_version env_major →
  getConfiguration env_major "syncSettings" "notification" = Some "major" →
  getConfiguration env_minor "syncSettings" "notification" = Some "minor" →
  getConfiguration env_all "syncSettings" "notification" ≠ Some "major" →
  getConfiguration env_all "syncSettings" "notification" ≠ Some "minor" →
  getConfiguration env_all "syncSettings" "notification" ≠ Some "none" →
  (shows_whatsNew (activate env_major s) = true →
   shows_whatsNew (activate env_minor s) = true)
  ∧ (shows_whatsNew (activate env_minor s) = true →
     shows_whatsNew (activate env_all s) = true).
Proof.
  intros Hv1 Hv2 Hmajor Hminor Hall1 Hall2 Hall3.
  rewrite !shows_checkVersion, Hv1, Hv2, Hmajor, Hminor.
  destruct (globalState s !! VERSION_KEY) as [previous|]; [|done].
  rewrite (notifies_otherwise _ previous (pkg_version env_major) Hall1 Hall2 Hall3).
  destruct (bool_decide (pkg_version env_major = previous)); [done|].
  cbn [negb andb]. unfold notifies, JS.strict_eq. cbn [bool_decide decide_rel].
  split; [|done].
  rewrite (bool_decide_eq_true_2 (Some "major" = Some "major")) by done.
  rewrite (bool_decide_eq_false_2 (Some "minor" = Some "major")) by discriminate.
  rewrite (bool_decide_eq_true_2 (Some "minor" = Some "minor")) by done.
  by intros ->.
Qed.

Lemma notification_levels_nest_witness :
  shows_whatsNew (activate (sample_env "2.0.0" (Some "major") None None)
                    (upgraded_from "1.4.0")) = true
  ∧ shows_whatsNew (activate (sample_env "2.0.0" (Some "minor") None None)
                      (upgraded_from "1.4.0")) = true
  ∧ shows_whatsNew (activate (sample_env "2.0.0" (Some "all") None None)
                      (upgraded_from "1.4.0")) = true.
Proof.
  destruct (notification_levels_nest
              (sample_env "2.0.0" (Some "major") None None)
              (sample_env "2.0.0" (Some "minor") None None)
              (sample_env "2.0.0" (Some "all") None None)
              (upgraded_from "1.4.0") eq_refl eq_refl eq_refl eq_refl)
    as [Hminor Hall]; try discriminate.
  assert (Hmajor : shows_whatsNew (activate (sample_env "2.0.0" (Some "major") None None)
                                     (upgraded_from "1.4.0")) = true) by reflexivity.
  split; [exact Hmajor|]. split; [exact (Hminor Hmajor)|exact (Hall (Hminor Hmajor))].
Defined.
